(** * fentsports-backend: wallet-signature authentication and score submission

    A shallow embedding of [src/server.cjs].  The three POST handlers
    ([/api/register], [/api/session], [/api/score]) are transcribed as
    functions over an explicit database state; the packages they call
    (bs58, tweetnacl, jsonwebtoken, mongoose) are modelled at the boundary
    the handlers use.

    Conventions.
    - A request-body field is an [option]: [None] is JavaScript's
      [undefined] (the key is absent), [Some s] a string (for [score], a
      number or JSON null).  Fields are typed as the interface declares
      them; a body that puts another JSON type in a field is outside this
      model.
    - A string is a sequence of character codes, one per code unit, so
      [String.length] is JavaScript's [.length] and [TextEncoder.encode]
      is the list of codes (exact for ASCII text).
    - Time is [Date.now()], an integer number of milliseconds. *)

From Stdlib Require Import ZArith NArith List String Ascii Bool Lia.
From Stdlib Require Import Strings.Byte.
From Stdlib Require Import Sorting.Sorted Sorting.Permutation.
Import ListNotations.

Local Open Scope string_scope.
Local Open Scope Z_scope.

(** ** JavaScript values and completions *)

(** [!v] on a string-or-undefined value: [undefined] and [""] are falsy. *)
Definition falsy (v : option string) : bool :=
  match v with
  | None => true
  | Some s => (String.length s =? 0)%nat
  end.

(** [v === undefined]. *)
Definition is_undefined {A : Type} (v : option A) : bool :=
  match v with
  | None => true
  | Some _ => false
  end.

(** What a number field of a JSON body can hold: a number or null. *)
Inductive number_or_null : Type :=
| Number (z : Z)
| Null.

(** [!n] on a number field, given for contrast with [is_undefined]:
    [undefined], null and the number 0 are all falsy. *)
Definition falsy_number (v : option number_or_null) : bool :=
  match v with
  | None => true
  | Some Null => true
  | Some (Number n) => n =? 0
  end.

(** [a !== b] on string-or-undefined values. *)
Definition strict_neq (a b : option string) : bool :=
  match a, b with
  | None, None => false
  | Some x, Some y => negb (String.eqb x y)
  | _, _ => true
  end.

(** Exceptions the packages raise. *)
Inductive exn : Type :=
| TypeError (message : string)
| Error (message : string)
| JsonWebTokenError (message : string)
| TokenExpiredError (message : string)
| ValidationError (message : string)
| MongoServerError (message : string).

(** Outcome of a call that either returns or throws. *)
Inductive result (A : Type) : Type :=
| Returned (a : A)
| Threw (e : exn).
Arguments Returned {A} a.
Arguments Threw {A} e.

Definition bytes : Type := list byte.

(** [new TextEncoder().encode(s)]; an [undefined] argument encodes as the
    empty array. *)
Definition TextEncoder_encode (s : option string) : bytes :=
  match s with
  | None => []
  | Some s => list_byte_of_string s
  end.

(** ** bs58 *)

Module bs58.

(** The Bitcoin alphabet: no 0, O, I or l. *)
Definition ALPHABET : string :=
  "123456789ABCDEFGHJKLMNPQRSTUVWXYZabcdefghijkmnopqrstuvwxyz".

Fixpoint indexOf (c : ascii) (s : string) (i : N) : option N :=
  match s with
  | EmptyString => None
  | String d s' => if Ascii.eqb c d then Some i else indexOf c s' (N.succ i)
  end.

Definition digit (c : ascii) : option N := indexOf c ALPHABET 0%N.

Fixpoint skip_leader (s : string) : nat * string :=
  match s with
  | String "1"%char s' => let (z, rest) := skip_leader s' in (S z, rest)
  | _ => (O, s)
  end.

Fixpoint numeral (s : string) (acc : N) : option N :=
  match s with
  | EmptyString => Some acc
  | String c s' =>
      match digit c with
      | None => None
      | Some d => numeral s' (acc * 58 + d)%N
      end
  end.

Definition byte_of_N (n : N) : byte :=
  match Byte.of_N (n mod 256)%N with
  | Some b => b
  | None => x00
  end.

Fixpoint base256 (fuel : nat) (n : N) (acc : bytes) : bytes :=
  match fuel with
  | O => acc
  | S fuel' =>
      if (n =? 0)%N then acc
      else base256 fuel' (n / 256)%N (byte_of_N n :: acc)
  end.

(** Modelled from the spec: the bs58 package is not under src/.  Section
    4.1 fixes the encoding (base-58 text of raw byte arrays) and names
    malformed base-58 as a decoding failure; the package signals that
    failure by throwing.  Each leading 1 stands for a zero byte, the rest
    is a base-58 numeral written out big-endian in base 256. *)
Definition decode (source : option string) : result bytes :=
  match source with
  | None => Threw (TypeError "Expected String")
  | Some s =>
      let (zeroes, rest) := skip_leader s in
      match numeral rest 0%N with
      | None => Threw (Error "Non-base58 character")
      | Some n =>
          Returned (repeat x00 zeroes ++
                    base256 (String.length rest) n [])%list
      end
  end.

End bs58.

(** ** tweetnacl *)

Module nacl.

Definition crypto_sign_BYTES : nat := 64.
Definition crypto_sign_PUBLICKEYBYTES : nat := 32.

Section Primitive.

(** The Ed25519 check itself: [crypto_sign_open sm pk] is true when
    the signed message [sm] (signature followed by message) opens
    under the public key [pk]. *)
Variable crypto_sign_open : bytes -> bytes -> bool.

(** Modelled from the spec: tweetnacl is not under src/.  Section 4.1
    fixes a 32-byte public key and a 64-byte detached signature and
    names a wrong-length key or signature as a decoding failure; the
    package signals it by throwing before the check runs. *)
Definition sign_detached_verify (msg sig publicKey : bytes) : result bool :=
  if negb (List.length sig =? crypto_sign_BYTES)%nat then
    Threw (Error "bad signature size")
  else if negb (List.length publicKey =? crypto_sign_PUBLICKEYBYTES)%nat then
    Threw (Error "bad public key size")
  else
    Returned (crypto_sign_open (sig ++ msg)%list publicKey).

End Primitive.

End nacl.

(** ** jsonwebtoken *)

Module jwt.

(** The claims of a session token: the payload [{ wallet, game }] the
    session handler signs, with the [iat] and [exp] (seconds) that
    [expiresIn] adds. *)
Record claims : Type := {
  wallet : option string;
  game : option string;
  iat : Z;
  exp : Z
}.

(** The integrity tag, kept symbolic: the keyed hash of the claims. *)
Inductive tag : Type :=
| HMAC (secret : string) (c : claims).

(** A token as text: either text that is not a well-formed compact JWT,
    or the compact serialisation of claims and a tag. *)
Inductive token : Type :=
| Opaque (text : string)
| Compact (c : claims) (t : tag).

Definition claims_eqb (a b : claims) : bool :=
  negb (strict_neq (wallet a) (wallet b)) &&
  negb (strict_neq (game a) (game b)) &&
  (iat a =? iat b) && (exp a =? exp b).

Definition tag_eqb (a b : tag) : bool :=
  match a, b with
  | HMAC ka ca, HMAC kb cb => String.eqb ka kb && claims_eqb ca cb
  end.

(** [!t] on a token-or-undefined value. *)
Definition falsy (t : option token) : bool :=
  match t with
  | None => true
  | Some (Opaque text) => (String.length text =? 0)%nat
  | Some (Compact _ _) => false
  end.

(** The clock jsonwebtoken reads: [Math.floor(Date.now() / 1000)]. *)
Definition clockTimestamp (now : Z) : Z := now / 1000.

(** Modelled from the spec: jsonwebtoken is not under src/.  Section 4.2:
    issue embeds wallet, game, issuedAt = now and expiresAt = now +
    expiresIn and signs with the secret. *)
Definition sign (w g : option string) (secret : string) (expiresIn : Z)
    (now : Z) : token :=
  let timestamp := clockTimestamp now in
  let c := {| wallet := w; game := g; iat := timestamp;
              exp := timestamp + expiresIn |} in
  Compact c (HMAC secret c).

(** Modelled from the spec: jsonwebtoken is not under src/.  Section 4.2:
    verify decodes, checks the integrity tag, then the current time
    against expiresAt; a time equal to expiresAt counts as expired. *)
Definition verify (t : option token) (secret : string) (now : Z)
    : result claims :=
  match t with
  | None => Threw (JsonWebTokenError "jwt must be provided")
  | Some (Opaque text) =>
      if (String.length text =? 0)%nat
      then Threw (JsonWebTokenError "jwt must be provided")
      else Threw (JsonWebTokenError "jwt malformed")
  | Some (Compact c t) =>
      if negb (tag_eqb t (HMAC secret c)) then
        Threw (JsonWebTokenError "invalid signature")
      else if exp c <=? clockTimestamp now then
        Threw (TokenExpiredError "jwt expired")
      else
        Returned c
  end.

End jwt.

(** ** mongoose models

    The schemas are the source's (lines 35-53); what [findOne] and [save]
    do with them is mongoose's: validators run on save, a failed
    validation or a duplicate key throws and writes nothing. *)

Module User.

(** [userSchema]: wallet (unique, required), name (maxlength 10),
    createdAt (default [Date.now]). *)
Record t : Type := {
  wallet : option string;
  name : option string;
  createdAt : Z
}.

Definition maxlength : nat := 10.

(** [User.findOne({ wallet })]: the first stored document whose wallet is
    the filter's. *)
Definition findOne (coll : list t) (w : option string) : option t :=
  find (fun u => negb (strict_neq (wallet u) w)) coll.

(** Schema validation run by [save]: [required] rejects an absent or
    empty wallet; [maxlength] rejects a name of more than 10 characters
    and is skipped for an absent name. *)
Definition validate (u : t) : bool :=
  negb (falsy (wallet u)) &&
  match name u with
  | None => true
  | Some s => (String.length s <=? maxlength)%nat
  end.

(** [user.save()] for a new document: validation, then an insert that
    the unique index on wallet refuses for a duplicate.  The write is
    all-or-nothing. *)
Definition save (u : t) (coll : list t) : result (list t) :=
  if negb (validate u) then
    Threw (ValidationError "User validation failed")
  else
    match findOne coll (wallet u) with
    | Some _ => Threw (MongoServerError "E11000 duplicate key error")
    | None => Returned (coll ++ [u])%list
    end.

End User.

Module Score.

(** [scoreSchema]: no field is required and none is validated; a null
    score is stored as null. *)
Record t : Type := {
  wallet : option string;
  game : option string;
  score : option number_or_null;
  name : string;
  timestamp : Z
}.

(** [newScore.save()]: an insert; the collection is append-only. *)
Definition save (s : t) (coll : list t) : result (list t) :=
  Returned (coll ++ [s])%list.

End Score.

(** The two collections. *)
Record db : Type := {
  users : list User.t;
  scores : list Score.t
}.

Definition empty_db : db := {| users := []; scores := [] |}.

(** ** Express requests and responses *)

Module RegisterBody.
Record t : Type := {
  wallet : option string;
  signature : option string;
  message : option string;
  name : option string;
  skip : bool
}.
End RegisterBody.

Module SessionBody.
Record t : Type := {
  wallet : option string;
  game : option string
}.
End SessionBody.

Module ScoreBody.
Record t : Type := {
  wallet : option string;
  game : option string;
  score : option number_or_null;
  sessionToken : option jwt.token;
  clientSignature : option string;
  signatureMessage : option string
}.
End ScoreBody.

(** The JSON documents the handlers send. *)
Inductive json : Type :=
| error_json (error : string)
| user_json (success : bool) (user : User.t)
| token_json (sessionToken : jwt.token)
| success_json (success : bool).

Record response : Type := {
  status : Z;
  body : json
}.

(** ** Handler bodies: state, early return and exceptions *)

(** How a statement of an async handler completes: normally with a value,
    by sending the response and returning, or by throwing. *)
Inductive completion (A : Type) : Type :=
| Normal (a : A)
| Return (r : response)
| Throw (e : exn).
Arguments Normal {A} a.
Arguments Return {A} r.
Arguments Throw {A} e.

Definition M (A : Type) : Type := db -> completion A * db.

Definition ret {A : Type} (a : A) : M A := fun d => (Normal a, d).

Definition bind {A B : Type} (m : M A) (k : A -> M B) : M B :=
  fun d =>
    match m d with
    | (Normal a, d') => k a d'
    | (Return r, d') => (Return r, d')
    | (Throw e, d') => (Throw e, d')
    end.

Notation "x <- m ;; k" := (bind m (fun x => k))
  (at level 61, m at next level, right associativity).

(** [return res.status(code).json(doc)]. *)
Definition res_status_json {A : Type} (code : Z) (doc : json) : M A :=
  fun d => (Return {| status := code; body := doc |}, d).

(** [return res.json(doc)]: the status stays 200. *)
Definition res_json {A : Type} (doc : json) : M A := res_status_json 200 doc.

(** A package call that may throw. *)
Definition call {A : Type} (r : result A) : M A :=
  fun d =>
    match r with
    | Returned a => (Normal a, d)
    | Threw e => (Throw e, d)
    end.

Definition User_findOne (w : option string) : M (option User.t) :=
  fun d => (Normal (User.findOne (users d) w), d).

Definition User_save (u : User.t) : M unit :=
  fun d =>
    match User.save u (users d) with
    | Returned coll => (Normal tt, {| users := coll; scores := scores d |})
    | Threw e => (Throw e, d)
    end.

Definition Score_save (s : Score.t) : M unit :=
  fun d =>
    match Score.save s (scores d) with
    | Returned coll => (Normal tt, {| users := users d; scores := coll |})
    | Threw e => (Throw e, d)
    end.

(** [try { body } catch (error) { handler }] around a whole handler; the
    body always ends by sending a response or throwing. *)
Definition try_catch (body : M Empty_set) (handler : exn -> response)
    : db -> response * db :=
  fun d =>
    match body d with
    | (Normal a, _) => match a with end
    | (Return r, d') => (r, d')
    | (Throw e, d') => (handler e, d')
    end.

(** ** server.cjs *)

Module server.

Definition SESSION_DURATION : Z := 10 * 60.

Definition Internal_server_error (error : exn) : response :=
  {| status := 500; body := error_json "Internal server error" |}.

Section Handlers.

(** [process.env.JWT_SECRET || 'your_jwt_secret'], fixed at start-up. *)
Variable JWT_SECRET : string.

(** The Ed25519 primitive under [nacl.sign.detached.verify]. *)
Variable crypto_sign_open : bytes -> bytes -> bool.

(** [app.post('/api/register', ...)]. *)
Definition register (req : RegisterBody.t) (now : Z) : db -> response * db :=
  let wallet := RegisterBody.wallet req in
  let signature := RegisterBody.signature req in
  let message := RegisterBody.message req in
  let name := RegisterBody.name req in
  let skip := RegisterBody.skip req in
  try_catch
    (if falsy wallet then
       res_status_json 400 (error_json "Missing wallet")
     else
       _ <- (if negb skip then
               if falsy signature || falsy message then
                 res_status_json 400 (error_json "Missing required fields")
               else
                 publicKey <- call (bs58.decode wallet) ;;
                 sig <- call (bs58.decode signature) ;;
                 let messageBytes := TextEncoder_encode message in
                 isValid <- call (nacl.sign_detached_verify crypto_sign_open
                                    messageBytes sig publicKey) ;;
                 if negb isValid then
                   res_status_json 400 (error_json "Invalid signature")
                 else ret tt
             else ret tt) ;;
       found <- User_findOne wallet ;;
       user <- match found with
               | None =>
                   let user := {| User.wallet := wallet; User.name := name;
                                  User.createdAt := now |} in
                   _ <- User_save user ;;
                   ret user
               | Some user => ret user
               end ;;
       res_json (user_json true user))
    Internal_server_error.

(** [app.post('/api/session', ...)]. *)
Definition session (req : SessionBody.t) (now : Z) : response :=
  let wallet := SessionBody.wallet req in
  let game := SessionBody.game req in
  if falsy wallet || falsy game then
    {| status := 400; body := error_json "Missing wallet or game" |}
  else
    let sessionToken := jwt.sign wallet game JWT_SECRET SESSION_DURATION now in
    {| status := 200; body := token_json sessionToken |}.

(** [app.post('/api/score', ...)]. *)
Definition score (req : ScoreBody.t) (now : Z) : db -> response * db :=
  let wallet := ScoreBody.wallet req in
  let game := ScoreBody.game req in
  let score := ScoreBody.score req in
  let sessionToken := ScoreBody.sessionToken req in
  let clientSignature := ScoreBody.clientSignature req in
  let signatureMessage := ScoreBody.signatureMessage req in
  try_catch
    (if falsy wallet || falsy game || is_undefined score ||
        jwt.falsy sessionToken || falsy clientSignature ||
        falsy signatureMessage then
       res_status_json 400 (error_json "Missing required fields")
     else
       match jwt.verify sessionToken JWT_SECRET now with
       | Threw err =>
           res_status_json 401 (error_json "Invalid or expired session token")
       | Returned sessionPayload =>
           if strict_neq (jwt.wallet sessionPayload) wallet ||
              strict_neq (jwt.game sessionPayload) game then
             res_status_json 401
               (error_json "Session token does not match the request")
           else
             let messageBytes := TextEncoder_encode signatureMessage in
             sigBytes <- call (bs58.decode clientSignature) ;;
             walletPublicKey <- call (bs58.decode wallet) ;;
             isValidSignature <-
               call (nacl.sign_detached_verify crypto_sign_open
                       messageBytes sigBytes walletPublicKey) ;;
             if negb isValidSignature then
               res_status_json 401 (error_json "Invalid client signature")
             else
               user <- User_findOne wallet ;;
               let userName :=
                 match user with
                 | Some u => if negb (falsy (User.name u))
                             then match User.name u with
                                  | Some n => n
                                  | None => ""
                                  end
                             else ""
                 | None => ""
                 end in
               let newScore :=
                 {| Score.wallet := wallet; Score.game := game;
                    Score.score := score; Score.name := userName;
                    Score.timestamp := now |} in
               _ <- Score_save newScore ;;
               res_json (success_json true)
       end)
    Internal_server_error.

(** The signature check as the register handler runs it (lines 75-78):
    wallet decoded first, then the signature. *)
Definition register_verify (req : RegisterBody.t) : result bool :=
  match bs58.decode (RegisterBody.wallet req) with
  | Threw e => Threw e
  | Returned publicKey =>
      match bs58.decode (RegisterBody.signature req) with
      | Threw e => Threw e
      | Returned sig =>
          nacl.sign_detached_verify crypto_sign_open
            (TextEncoder_encode (RegisterBody.message req)) sig publicKey
      end
  end.

(** The signature check as the score handler runs it (lines 138-141):
    signature decoded first, then the wallet. *)
Definition score_verify (req : ScoreBody.t) : result bool :=
  match bs58.decode (ScoreBody.clientSignature req) with
  | Threw e => Threw e
  | Returned sigBytes =>
      match bs58.decode (ScoreBody.wallet req) with
      | Threw e => Threw e
      | Returned walletPublicKey =>
          nacl.sign_detached_verify crypto_sign_open
            (TextEncoder_encode (ScoreBody.signatureMessage req))
            sigBytes walletPublicKey
      end
  end.

(** The presence test of the score handler (line 120). *)
Definition score_fields_missing (req : ScoreBody.t) : bool :=
  falsy (ScoreBody.wallet req) || falsy (ScoreBody.game req) ||
  is_undefined (ScoreBody.score req) ||
  jwt.falsy (ScoreBody.sessionToken req) ||
  falsy (ScoreBody.clientSignature req) ||
  falsy (ScoreBody.signatureMessage req).

(** The match test of the score handler (line 133). *)
Definition session_mismatch (p : jwt.claims) (req : ScoreBody.t) : bool :=
  strict_neq (jwt.wallet p) (ScoreBody.wallet req) ||
  strict_neq (jwt.game p) (ScoreBody.game req).

(** A registration request gets past lines 64-82: the wallet is present
    and either [skip] is set or the proof is present and verifies. *)
Definition register_passes (req : RegisterBody.t) : bool :=
  negb (falsy (RegisterBody.wallet req)) &&
  (RegisterBody.skip req ||
   (negb (falsy (RegisterBody.signature req)) &&
    negb (falsy (RegisterBody.message req)) &&
    match register_verify req with
    | Returned true => true
    | _ => false
    end)).

(** One request that can change the database, and the states the running
    server moves through. *)
Inductive request : Type :=
| POST_register (req : RegisterBody.t) (now : Z)
| POST_score (req : ScoreBody.t) (now : Z).

Definition handle (r : request) (d : db) : db :=
  match r with
  | POST_register req now => snd (register req now d)
  | POST_score req now => snd (score req now d)
  end.

Inductive reachable_from (d0 : db) : db -> Prop :=
| reach_here : reachable_from d0 d0
| reach_step (d : db) (r : request) :
    reachable_from d0 d -> reachable_from d0 (handle r d).

End Handlers.

(** The document line 87 builds. *)
Definition new_user (req : RegisterBody.t) (now : Z) : User.t :=
  {| User.wallet := RegisterBody.wallet req;
     User.name := RegisterBody.name req;
     User.createdAt := now |}.

(** The document line 154 builds: [userName] is the stored name when the
    wallet has a user with a non-empty name, the empty string otherwise. *)
Definition new_score (req : ScoreBody.t) (now : Z) (d : db) : Score.t :=
  {| Score.wallet := ScoreBody.wallet req;
     Score.game := ScoreBody.game req;
     Score.score := ScoreBody.score req;
     Score.name :=
       match User.findOne (users d) (ScoreBody.wallet req) with
       | Some u => match User.name u with Some n => n | None => "" end
       | None => ""
       end;
     Score.timestamp := now |}.

(** The text decodes to exactly [n] bytes. *)
Definition decodes_to (n : nat) (text : option string) : bool :=
  match bs58.decode text with
  | Returned b => (List.length b =? n)%nat
  | Threw _ => false
  end.

(** Decoding fails: the wallet or the signature is malformed base-58, or
    has the wrong length for a key or a signature. *)
Definition decode_failure (wallet signature : option string) : bool :=
  negb (decodes_to nacl.crypto_sign_PUBLICKEYBYTES wallet &&
        decodes_to nacl.crypto_sign_BYTES signature).

(** How many stored users carry the wallet [w]. *)
Definition count_wallet (w : option string) (coll : list User.t) : nat :=
  List.length (filter (fun u => negb (strict_neq (User.wallet u) w)) coll).

(** The unique index on [wallet]. *)
Definition unique_wallets (d : db) : Prop :=
  forall w, (count_wallet w (users d) <= 1)%nat.

(** The token is the compact form of [c] with the tag the secret gives. *)
Definition token_verifies (secret : string) (tok : option jwt.token)
    (c : jwt.claims) : Prop :=
  tok = Some (jwt.Compact c (jwt.HMAC secret c)).

Definition not_expired (c : jwt.claims) (now : Z) : Prop :=
  jwt.clockTimestamp now < jwt.exp c.

(** What a score submission must carry at time [now]: a session token
    that verifies under the secret, is not expired, and names the
    request's wallet and game, and a signature over [signatureMessage]
    that verifies against the request's wallet. *)
Definition authenticated (secret : string)
    (crypto_sign_open : bytes -> bytes -> bool) (req : ScoreBody.t)
    (now : Z) : Prop :=
  exists c,
    token_verifies secret (ScoreBody.sessionToken req) c /\
    not_expired c now /\
    jwt.wallet c = ScoreBody.wallet req /\
    jwt.game c = ScoreBody.game req /\
    score_verify crypto_sign_open req = Returned true.

End server.

(** ** Concrete data for evaluating the handlers *)

Module demo.

(** A stand-in for the Ed25519 primitive: the signed message opens when
    its first 32 bytes repeat the public key. *)
Definition sign_open (sm pk : bytes) : bool :=
  if list_eq_dec Byte.byte_eq_dec (firstn 32 sm) pk then true else false.

Definition secret : string := "your_jwt_secret".

(** 32 zero bytes and 64 zero bytes in base-58. *)
Definition W : string := "11111111111111111111111111111111".
Definition SIG : string :=
  "1111111111111111111111111111111111111111111111111111111111111111".

(** 31 zero bytes and a final 1: a key the stand-in does not match
    against [SIG]. *)
Definition W2 : string := "11111111111111111111111111111112".

Definition t0 : Z := 1700000000000.

Definition token : jwt.token :=
  jwt.sign (Some W) (Some "snake") secret server.SESSION_DURATION t0.

Definition submission (g sig : string) (sc : Z) : ScoreBody.t :=
  {| ScoreBody.wallet := Some W; ScoreBody.game := Some g;
     ScoreBody.score := Some (Number sc);
     ScoreBody.sessionToken := Some token;
     ScoreBody.clientSignature := Some sig;
     ScoreBody.signatureMessage := Some "m1" |}.

Definition submit (sc : Z) : ScoreBody.t := submission "snake" SIG sc.

Definition signup (w : string) (n : option string) : RegisterBody.t :=
  {| RegisterBody.wallet := Some w; RegisterBody.signature := None;
     RegisterBody.message := None; RegisterBody.name := n;
     RegisterBody.skip := true |}.

Definition signed_signup (w sig : string) : RegisterBody.t :=
  {| RegisterBody.wallet := Some w; RegisterBody.signature := Some sig;
     RegisterBody.message := Some "m1"; RegisterBody.name := Some "Ann";
     RegisterBody.skip := false |}.

Definition ann : User.t :=
  {| User.wallet := Some W; User.name := Some "Ann"; User.createdAt := t0 |}.

Definition with_ann : db := {| users := [ann]; scores := [] |}.

(** Text that is not base-58: the characters 0, O, I and l are not in the
    alphabet. *)
Definition NOT_BASE58 : string := "0OIl".

(** Eleven characters, one more than the schema allows for a name. *)
Definition LONG_NAME : string := "ABCDEFGHIJK".

(** The claims inside [token]. *)
Definition token_claims : jwt.claims :=
  {| jwt.wallet := Some W; jwt.game := Some "snake";
     jwt.iat := 1700000000; jwt.exp := 1700000600 |}.

End demo.


(** ** Read-only endpoints *)

Module queries.

(** The number a score field is sorted by, if it holds one. *)
Definition sort_key (a : option number_or_null) : option Z :=
  match a with
  | Some (Number z) => Some z
  | _ => None
  end.

(** The order MongoDB sorts a number field by: a missing or null value
    sorts below every number. *)
Definition score_leb (a b : option number_or_null) : bool :=
  match sort_key a, sort_key b with
  | None, _ => true
  | Some _, None => false
  | Some x, Some y => x <=? y
  end.

(** [r] may stand before [x] in a [.sort({ score: -1 })] result. *)
Definition before (r x : Score.t) : Prop :=
  score_leb (Score.score x) (Score.score r) = true.

Fixpoint insert_desc (r : Score.t) (l : list Score.t) : list Score.t :=
  match l with
  | [] => [r]
  | x :: l' =>
      if score_leb (Score.score x) (Score.score r) then r :: x :: l'
      else x :: insert_desc r l'
  end.

(** [.sort({ score: -1 })]: descending by score.  MongoDB leaves the
    order of equal scores open; here they keep their insertion order. *)
Fixpoint sort_desc (l : list Score.t) : list Score.t :=
  match l with
  | [] => []
  | r :: l' => insert_desc r (sort_desc l')
  end.

(** The filter [{ wallet, game }]. *)
Definition matches (w g : option string) (r : Score.t) : bool :=
  negb (strict_neq (Score.wallet r) w) && negb (strict_neq (Score.game r) g).

(** The filter [{ game }]. *)
Definition matches_game (g : option string) (r : Score.t) : bool :=
  negb (strict_neq (Score.game r) g).

(** The JSON documents the GET handlers send. *)
Inductive json : Type :=
| error_json (error : string)
| best_json (best : option Score.t)
| scores_json (scores : list Score.t)
| registered_json (registered : bool) (name : option string).

Record response : Type := {
  status : Z;
  body : json
}.

(** [app.get('/api/bestscore', ...)].  The [catch] branch answers a
    failure of the store itself, which this model does not have. *)
Definition bestscore (wallet game : option string) (d : db) : response :=
  if falsy wallet || falsy game then
    {| status := 400;
       body := error_json "Missing wallet or game query parameter" |}
  else
    let best := hd_error (sort_desc (filter (matches wallet game) (scores d))) in
    {| status := 200; body := best_json best |}.

(** [app.get('/api/leaderboard', ...)]. *)
Definition leaderboard (game : option string) (d : db) : response :=
  if falsy game then
    {| status := 400; body := error_json "Missing game query parameter" |}
  else
    let scores :=
      firstn 50 (sort_desc (filter (matches_game game) (scores d))) in
    {| status := 200; body := scores_json scores |}.

(** [app.get('/api/user', ...)]. *)
Definition user (wallet : option string) (d : db) : response :=
  if falsy wallet then
    {| status := 400; body := error_json "Missing wallet parameter" |}
  else
    match User.findOne (users d) wallet with
    | Some user =>
        {| status := 200; body := registered_json true (User.name user) |}
    | None => {| status := 200; body := registered_json false None |}
    end.

End queries.

(** ** Requests derived from a request, and what the collections hold *)

(** A string field is present: it holds a non-empty string. *)
Definition present (v : option string) : Prop :=
  exists s, v = Some s /\ s <> "".

(** All six fields of a score request are present: wallet, game,
    sessionToken, clientSignature and signatureMessage are non-empty
    strings, and score is there, whatever its value. *)
Definition all_six_present (req : ScoreBody.t) : Prop :=
  present (ScoreBody.wallet req) /\
  present (ScoreBody.game req) /\
  (exists s, ScoreBody.score req = Some s) /\
  (exists t, ScoreBody.sessionToken req = Some t /\ t <> jwt.Opaque "") /\
  present (ScoreBody.clientSignature req) /\
  present (ScoreBody.signatureMessage req).

(** The same submission with another score. *)
Definition with_score (req : ScoreBody.t) (s : Z) : ScoreBody.t :=
  {| ScoreBody.wallet := ScoreBody.wallet req;
     ScoreBody.game := ScoreBody.game req;
     ScoreBody.score := Some (Number s);
     ScoreBody.sessionToken := ScoreBody.sessionToken req;
     ScoreBody.clientSignature := ScoreBody.clientSignature req;
     ScoreBody.signatureMessage := ScoreBody.signatureMessage req |}.

(** The same registration with another signature and message. *)
Definition with_proof (req : RegisterBody.t) (sig msg : option string)
    : RegisterBody.t :=
  {| RegisterBody.wallet := RegisterBody.wallet req;
     RegisterBody.signature := sig;
     RegisterBody.message := msg;
     RegisterBody.name := RegisterBody.name req;
     RegisterBody.skip := RegisterBody.skip req |}.

(** A stored score has the fields the score handler insists on: wallet
    and game non-empty, a score field that is present (a number or null),
    and a wallet that is a 32-byte key. *)
Definition score_well_formed (r : Score.t) : Prop :=
  falsy (Score.wallet r) = false /\
  falsy (Score.game r) = false /\
  Score.score r <> None /\
  server.decodes_to nacl.crypto_sign_PUBLICKEYBYTES (Score.wallet r) = true.

(** A stored score's name is empty or the name of the stored user of its
    wallet. *)
Definition name_from_user (d : db) (r : Score.t) : Prop :=
  Score.name r = "" \/
  exists u,
    User.findOne (users d) (Score.wallet r) = Some u /\
    User.name u = Some (Score.name r).

(** A state the server reaches: Ann registered, one score of 42. *)
Module sample.

Definition score42 : Score.t :=
  {| Score.wallet := Some demo.W; Score.game := Some "snake";
     Score.score := Some (Number 42); Score.name := "Ann";
     Score.timestamp := demo.t0 |}.

Definition played : db := {| users := [demo.ann]; scores := [score42] |}.

Definition r1 : server.request :=
  server.POST_register (demo.signup demo.W (Some "Ann")) demo.t0.

Definition r2 : server.request := server.POST_score (demo.submit 42) demo.t0.



(** A submission whose score is JSON null. *)
Definition submit_null : ScoreBody.t :=
  {| ScoreBody.wallet := Some demo.W; ScoreBody.game := Some "snake";
     ScoreBody.score := Some Null;
     ScoreBody.sessionToken := Some demo.token;
     ScoreBody.clientSignature := Some demo.SIG;
     ScoreBody.signatureMessage := Some "m1" |}.

(** A submission with no score field. *)
Definition submit_no_score : ScoreBody.t :=
  {| ScoreBody.wallet := Some demo.W; ScoreBody.game := Some "snake";
     ScoreBody.score := None;
     ScoreBody.sessionToken := Some demo.token;
     ScoreBody.clientSignature := Some demo.SIG;
     ScoreBody.signatureMessage := Some "m1" |}.

End sample.

(** * Properties *)

Example bs58_decode_2g : bs58.decode (Some "2g") = Returned ["a"%byte].
Proof. reflexivity. Qed.

Example bs58_decode_zero_key :
  bs58.decode (Some "11") = Returned [x00; x00].
Proof. reflexivity. Qed.

Example bs58_decode_rejects_0 :
  bs58.decode (Some "0") = Threw (Error "Non-base58 character").
Proof. reflexivity. Qed.

Example register_with_proof :
  server.register demo.sign_open (demo.signed_signup demo.W demo.SIG)
    demo.t0 empty_db =
  ({| status := 200; body := user_json true demo.ann |}, demo.with_ann).
Proof. reflexivity. Qed.

(** The scenario of section 8: register "Ann" with skip, open a session
    for "snake", submit 42 with a signature that verifies. *)
Example scenario_ann :
  let d1 := snd (server.register demo.sign_open
                   (demo.signup demo.W (Some "Ann")) demo.t0 empty_db) in
  users d1 = [demo.ann] /\
  server.session demo.secret
    {| SessionBody.wallet := Some demo.W; SessionBody.game := Some "snake" |}
    demo.t0 = {| status := 200; body := token_json demo.token |} /\
  server.score demo.secret demo.sign_open (demo.submit 42) (demo.t0 + 5000) d1 =
    ({| status := 200; body := success_json true |},
     {| users := [demo.ann];
        scores := [ {| Score.wallet := Some demo.W;
                       Score.game := Some "snake";
                       Score.score := Some (Number 42);
                       Score.name := "Ann";
                       Score.timestamp := demo.t0 + 5000 |} ] |}).
Proof. vm_compute. repeat split. Qed.

(** ** Equality tests *)

Lemma strict_neq_false (a b : option string) :
  strict_neq a b = false <-> a = b.
Proof.
  destruct a as [x|], b as [y|]; simpl; split; intros H;
    try discriminate; try reflexivity.
  - apply negb_false_iff, String.eqb_eq in H. now subst.
  - injection H as ->. now rewrite String.eqb_refl.
Qed.

Lemma claims_eqb_eq (a b : jwt.claims) :
  jwt.claims_eqb a b = true <-> a = b.
Proof.
  unfold jwt.claims_eqb. rewrite !andb_true_iff, !negb_true_iff,
    !strict_neq_false, !Z.eqb_eq.
  destruct a, b; simpl. split.
  - intros [[[-> ->] ->] ->]. reflexivity.
  - intros H. injection H as -> -> -> ->. auto.
Qed.

Lemma tag_eqb_eq (a b : jwt.tag) : jwt.tag_eqb a b = true <-> a = b.
Proof.
  destruct a as [ka ca], b as [kb cb]. simpl.
  rewrite andb_true_iff, String.eqb_eq, claims_eqb_eq. split.
  - intros [-> ->]. reflexivity.
  - intros H. injection H as -> ->. auto.
Qed.

Lemma tag_eqb_refl (a : jwt.tag) : jwt.tag_eqb a a = true.
Proof. now apply tag_eqb_eq. Qed.

(** ** What [jwt.verify] accepts *)

Lemma verify_returned (tok : option jwt.token) (secret : string) (now : Z)
    (c : jwt.claims) :
  jwt.verify tok secret now = Returned c <->
  server.token_verifies secret tok c /\ server.not_expired c now.
Proof.
  unfold server.token_verifies, server.not_expired, jwt.verify. split.
  - destruct tok as [[text|c' t]|]; try discriminate.
    + destruct (String.length text =? 0)%nat; discriminate.
    + destruct (jwt.tag_eqb t (jwt.HMAC secret c')) eqn:Etag; simpl;
        try discriminate.
      destruct (jwt.exp c' <=? jwt.clockTimestamp now) eqn:Eexp;
        try discriminate.
      intros H. injection H as <-. apply tag_eqb_eq in Etag. subst t.
      apply Z.leb_gt in Eexp. auto.
  - intros [-> Hexp]. rewrite tag_eqb_refl. simpl.
    apply Z.leb_gt in Hexp. now rewrite Hexp.
Qed.

Section Properties.

Variable JWT_SECRET : string.
Variable crypto_sign_open : bytes -> bytes -> bool.

Let register := server.register crypto_sign_open.
Let score := server.score JWT_SECRET crypto_sign_open.
Let register_verify := server.register_verify crypto_sign_open.
Let score_verify := server.score_verify crypto_sign_open.

(** ** The handlers, case by case *)

Lemma score_cases (req : ScoreBody.t) (now : Z) (d : db) :
  score req now d =
  if server.score_fields_missing req then
    ({| status := 400; body := error_json "Missing required fields" |}, d)
  else
    match jwt.verify (ScoreBody.sessionToken req) JWT_SECRET now with
    | Threw _ =>
        ({| status := 401;
            body := error_json "Invalid or expired session token" |}, d)
    | Returned p =>
        if server.session_mismatch p req then
          ({| status := 401;
              body := error_json "Session token does not match the request" |},
           d)
        else
          match score_verify req with
          | Threw _ =>
              ({| status := 500; body := error_json "Internal server error" |},
               d)
          | Returned false =>
              ({| status := 401;
                  body := error_json "Invalid client signature" |}, d)
          | Returned true =>
              ({| status := 200; body := success_json true |},
               {| users := users d;
                  scores := (scores d ++ [server.new_score req now d])%list |})
          end
    end.
Proof.
  unfold score, server.score, score_verify, server.score_verify,
    server.score_fields_missing, server.session_mismatch, try_catch.
  destruct (falsy (ScoreBody.wallet req) || falsy (ScoreBody.game req) ||
            is_undefined (ScoreBody.score req) ||
            jwt.falsy (ScoreBody.sessionToken req) ||
            falsy (ScoreBody.clientSignature req) ||
            falsy (ScoreBody.signatureMessage req)); [reflexivity|].
  destruct (jwt.verify _ _ _) as [p|e]; [|reflexivity].
  destruct (strict_neq _ _ || strict_neq _ _); [reflexivity|].
  unfold bind, call.
  destruct (bs58.decode (ScoreBody.clientSignature req)) as [sg|e];
    [|reflexivity].
  destruct (bs58.decode (ScoreBody.wallet req)) as [pk|e]; [|reflexivity].
  destruct (nacl.sign_detached_verify _ _ _ _) as [[|]|e]; try reflexivity.
  unfold User_findOne, Score_save, Score.save, res_json, res_status_json,
    server.new_score. simpl.
  destruct (User.findOne (users d) (ScoreBody.wallet req)) as [u|];
    [|reflexivity].
  destruct (User.name u) as [n|]; [|reflexivity].
  simpl. destruct n; reflexivity.
Qed.


Lemma register_cases (req : RegisterBody.t) (now : Z) (d : db) :
  register req now d =
  if falsy (RegisterBody.wallet req) then
    ({| status := 400; body := error_json "Missing wallet" |}, d)
  else if negb (RegisterBody.skip req) &&
          (falsy (RegisterBody.signature req) ||
           falsy (RegisterBody.message req)) then
    ({| status := 400; body := error_json "Missing required fields" |}, d)
  else
    match (if RegisterBody.skip req then Returned true
           else register_verify req) with
    | Threw _ =>
        ({| status := 500; body := error_json "Internal server error" |}, d)
    | Returned false =>
        ({| status := 400; body := error_json "Invalid signature" |}, d)
    | Returned true =>
        match User.findOne (users d) (RegisterBody.wallet req) with
        | Some user => ({| status := 200; body := user_json true user |}, d)
        | None =>
            if User.validate (server.new_user req now) then
              ({| status := 200;
                  body := user_json true (server.new_user req now) |},
               {| users := (users d ++ [server.new_user req now])%list;
                  scores := scores d |})
            else
              ({| status := 500; body := error_json "Internal server error" |},
               d)
        end
    end.
Proof.
  unfold register, server.register, register_verify, server.register_verify,
    try_catch.
  destruct (falsy (RegisterBody.wallet req)) eqn:Ew; [reflexivity|].
  assert (Htail : forall d0,
    try_catch
      (found <- User_findOne (RegisterBody.wallet req) ;;
       user <- match found with
               | None =>
                   let user := {| User.wallet := RegisterBody.wallet req;
                                  User.name := RegisterBody.name req;
                                  User.createdAt := now |} in
                   _ <- User_save user ;;
                   ret user
               | Some user => ret user
               end ;;
       res_json (user_json true user))
      server.Internal_server_error d0 =
    match User.findOne (users d0) (RegisterBody.wallet req) with
    | Some user => ({| status := 200; body := user_json true user |}, d0)
    | None =>
        if User.validate (server.new_user req now) then
          ({| status := 200;
              body := user_json true (server.new_user req now) |},
           {| users := (users d0 ++ [server.new_user req now])%list;
              scores := scores d0 |})
        else
          ({| status := 500; body := error_json "Internal server error" |},
           d0)
    end).
  { intros d0. unfold try_catch, bind, User_findOne, User_save, User.save,
      res_json, res_status_json, ret. fold (server.new_user req now).
    destruct (User.findOne (users d0) (RegisterBody.wallet req)) eqn:Ef;
      [reflexivity|].
    destruct (User.validate (server.new_user req now)); simpl;
      [|reflexivity].
    change (User.wallet (server.new_user req now))
      with (RegisterBody.wallet req).
    rewrite Ef. reflexivity. }
  unfold try_catch in Htail.
  destruct (RegisterBody.skip req); simpl.
  - unfold bind at 1. unfold ret at 1. apply Htail.
  - destruct (falsy (RegisterBody.signature req) ||
              falsy (RegisterBody.message req)); [reflexivity|].
    unfold bind at 1. unfold bind at 1. unfold call at 1.
    destruct (bs58.decode (RegisterBody.wallet req)) as [pk|e];
      [|reflexivity].
    unfold bind at 1. unfold call at 1.
    destruct (bs58.decode (RegisterBody.signature req)) as [sg|e];
      [|reflexivity].
    unfold bind at 1. unfold call at 1.
    destruct (nacl.sign_detached_verify _ _ _ _) as [[|]|e];
      try reflexivity.
    simpl. unfold ret at 1. apply Htail.
Qed.


Lemma session_mismatch_false (p : jwt.claims) (req : ScoreBody.t) :
  server.session_mismatch p req = false <->
  jwt.wallet p = ScoreBody.wallet req /\ jwt.game p = ScoreBody.game req.
Proof.
  unfold server.session_mismatch.
  now rewrite orb_false_iff, !strict_neq_false.
Qed.

Lemma append_one_neq {A : Type} (l : list A) (x : A) : (l ++ [x])%list <> l.
Proof.
  intros H. apply (f_equal (@List.length A)) in H.
  rewrite length_app in H. simpl in H. lia.
Qed.

(** ** Presence and mismatch, spelled out *)

Lemma falsy_false (v : option string) : falsy v = false <-> present v.
Proof.
  unfold present. destruct v as [s|]; simpl; split.
  - intros H. exists s. split; [reflexivity|]. intros ->. discriminate.
  - intros [s' [H Hne]]. injection H as <-. destruct s; [now elim Hne|].
    reflexivity.
  - discriminate.
  - intros [s [H _]]. discriminate.
Qed.

Lemma token_falsy_false (t : option jwt.token) :
  jwt.falsy t = false <-> exists t', t = Some t' /\ t' <> jwt.Opaque "".
Proof.
  destruct t as [[text|c tg]|]; simpl; split.
  - intros H. eexists. split; [reflexivity|]. intros E.
    injection E as ->. discriminate.
  - intros [t' [H Hne]]. injection H as <-.
    destruct text; [now elim Hne|reflexivity].
  - intros _. eexists. split; [reflexivity|discriminate].
  - reflexivity.
  - discriminate.
  - intros [t' [H _]]. discriminate.
Qed.

Lemma fields_missing_false (req : ScoreBody.t) :
  server.score_fields_missing req = false <-> all_six_present req.
Proof.
  unfold server.score_fields_missing, all_six_present.
  rewrite !orb_false_iff, !falsy_false, token_falsy_false.
  assert (Hs : is_undefined (ScoreBody.score req) = false <->
               exists s, ScoreBody.score req = Some s).
  { destruct (ScoreBody.score req) as [s|]; simpl; split; eauto;
      try discriminate. intros [s [=]]. }
  rewrite Hs. tauto.
Qed.

Lemma fields_missing_true (req : ScoreBody.t) :
  server.score_fields_missing req = true <-> ~ all_six_present req.
Proof.
  rewrite <- fields_missing_false.
  destruct (server.score_fields_missing req); split; congruence.
Qed.

Lemma strict_neq_true (a b : option string) :
  strict_neq a b = true <-> a <> b.
Proof.
  rewrite <- strict_neq_false. destruct (strict_neq a b); split; congruence.
Qed.

Lemma session_mismatch_true (p : jwt.claims) (req : ScoreBody.t) :
  server.session_mismatch p req = true <->
  jwt.wallet p <> ScoreBody.wallet req \/ jwt.game p <> ScoreBody.game req.
Proof.
  unfold server.session_mismatch.
  now rewrite orb_true_iff, !strict_neq_true.
Qed.

(** ** Score submission *)

(** C1.  A score record is persisted only if, at submission time, the
    session token verifies under the signing secret, is not expired,
    carries exactly the request's wallet and game, and the signature
    verifies against the request's wallet over the supplied
    signatureMessage; when any of these fails the database is left as it
    was. *)
Theorem score_persisted_only_if_authenticated
    (req : ScoreBody.t) (now : Z) (d : db) :
  (scores (snd (score req now d)) <> scores d ->
   server.authenticated JWT_SECRET crypto_sign_open req now) /\
  (~ server.authenticated JWT_SECRET crypto_sign_open req now ->
   snd (score req now d) = d).
Proof.
  rewrite score_cases. unfold server.authenticated.
  destruct (server.score_fields_missing req);
    [split; [intros H; now elim H | reflexivity]|].
  destruct (jwt.verify (ScoreBody.sessionToken req) JWT_SECRET now)
    as [p|e] eqn:Ev; [|split; [intros H; now elim H | reflexivity]].
  destruct (server.session_mismatch p req) eqn:Em;
    [split; [intros H; now elim H | reflexivity]|].
  destruct (score_verify req) as [[|]|e] eqn:Es;
    try (split; [intros H; now elim H | reflexivity]).
  apply verify_returned in Ev. destruct Ev as [Htok Hexp].
  apply session_mismatch_false in Em. destruct Em as [Hw Hg].
  assert (Hall : exists c,
    server.token_verifies JWT_SECRET (ScoreBody.sessionToken req) c /\
    server.not_expired c now /\
    jwt.wallet c = ScoreBody.wallet req /\
    jwt.game c = ScoreBody.game req /\
    server.score_verify crypto_sign_open req = Returned true)
    by (exists p; auto).
  split; [intros _; exact Hall | intros Hn; now elim Hn].
Qed.

(** Settles the clauses of one branch of the score handler: a clause
    holds by computation or its premises contradict the branch. *)
Ltac order_branch :=
  repeat match goal with
         | |- _ /\ _ => split
         | |- _ -> _ => intro
         | |- forall _, _ => intro
         end;
  try discriminate; try contradiction;
  repeat match goal with
         | H : Returned ?a = Returned ?b |- _ =>
             is_var b; injection H as <-
         | H : snd _ <> _ |- _ => simpl in H
         | H : _ \/ _ |- _ => destruct H
         end;
  try reflexivity; try contradiction; try congruence; trivial.

(** C4, as amended.  The score handler checks, in this order and
    stopping at the first failure: all six fields present (else 400
    "Missing required fields"); the session token verifies (else 401);
    the token's wallet and game are the request's (else 401, mismatch);
    the signature check over signatureMessage against the wallet, which
    answers 401 "Invalid client signature" when it returns false and, when
    decoding the signature or the wallet throws, ends in the catch-all's
    500 "Internal server error"; only then the user lookup and the insert
    of the record. *)
Theorem score_checks_in_order (req : ScoreBody.t) (now : Z) (d : db) :
  (~ all_six_present req ->
   score req now d =
   ({| status := 400; body := error_json "Missing required fields" |}, d)) /\
  (all_six_present req ->
   forall e, jwt.verify (ScoreBody.sessionToken req) JWT_SECRET now = Threw e ->
   score req now d =
   ({| status := 401; body := error_json "Invalid or expired session token" |},
    d)) /\
  (all_six_present req ->
   forall p, jwt.verify (ScoreBody.sessionToken req) JWT_SECRET now = Returned p ->
   jwt.wallet p <> ScoreBody.wallet req \/ jwt.game p <> ScoreBody.game req ->
   score req now d =
   ({| status := 401;
       body := error_json "Session token does not match the request" |}, d)) /\
  (all_six_present req ->
   forall p, jwt.verify (ScoreBody.sessionToken req) JWT_SECRET now = Returned p ->
   jwt.wallet p = ScoreBody.wallet req ->
   jwt.game p = ScoreBody.game req ->
   (score_verify req = Returned false ->
    score req now d =
    ({| status := 401; body := error_json "Invalid client signature" |}, d)) /\
   (forall e, score_verify req = Threw e ->
    score req now d =
    ({| status := 500; body := error_json "Internal server error" |}, d)) /\
   (score_verify req = Returned true ->
    score req now d =
    ({| status := 200; body := success_json true |},
     {| users := users d;
        scores := (scores d ++ [server.new_score req now d])%list |}))) /\
  (snd (score req now d) <> d ->
   all_six_present req /\
   (exists p,
      jwt.verify (ScoreBody.sessionToken req) JWT_SECRET now = Returned p /\
      jwt.wallet p = ScoreBody.wallet req /\
      jwt.game p = ScoreBody.game req) /\
   score_verify req = Returned true).
Proof.
  rewrite score_cases.
  destruct (server.score_fields_missing req) eqn:Em.
  { apply fields_missing_true in Em. order_branch. }
  apply fields_missing_false in Em.
  destruct (jwt.verify (ScoreBody.sessionToken req) JWT_SECRET now)
    as [p|e] eqn:Ev; [|order_branch].
  destruct (server.session_mismatch p req) eqn:Emis.
  { apply session_mismatch_true in Emis. order_branch;
      destruct Emis; congruence. }
  apply session_mismatch_false in Emis. destruct Emis as [Hw Hg].
  destruct (score_verify req) as [[|]|e'] eqn:Es; order_branch.
  exists p. auto.
Qed.


(** C9.  The presence test compares score with undefined only, not with
    truthiness: a request without a score is answered 400 "Missing
    required fields"; a request whose score is there, be it 0 or null,
    with every other field present and valid passes the test and persists
    a record with that score; an empty wallet, game, sessionToken,
    clientSignature or signatureMessage is answered 400 "Missing required
    fields". *)
Theorem score_zero_is_present (req : ScoreBody.t) (now : Z) (d : db) :
  (ScoreBody.score req = None ->
   score req now d =
     ({| status := 400; body := error_json "Missing required fields" |}, d)) /\
  (forall s,
   ScoreBody.score req = Some s ->
   s = Number 0 \/ s = Null ->
   falsy_number (Some s) = true /\
   (all_six_present req ->
    forall p,
    jwt.verify (ScoreBody.sessionToken req) JWT_SECRET now = Returned p ->
    jwt.wallet p = ScoreBody.wallet req ->
    jwt.game p = ScoreBody.game req ->
    score_verify req = Returned true ->
    server.score_fields_missing req = false /\
    exists r,
      score req now d =
        ({| status := 200; body := success_json true |},
         {| users := users d; scores := (scores d ++ [r])%list |}) /\
      Score.score r = Some s)) /\
  (ScoreBody.wallet req = Some "" \/
   ScoreBody.game req = Some "" \/
   ScoreBody.sessionToken req = Some (jwt.Opaque "") \/
   ScoreBody.clientSignature req = Some "" \/
   ScoreBody.signatureMessage req = Some "" ->
   score req now d =
     ({| status := 400; body := error_json "Missing required fields" |}, d)).
Proof.
  rewrite score_cases. split; [|split].
  - intros Hnone. unfold server.score_fields_missing. rewrite Hnone. simpl.
    rewrite orb_true_r. reflexivity.
  - intros s Hs Hfalsy. split; [destruct Hfalsy as [->| ->]; reflexivity|].
    intros Hall p Hv Hw Hg Hverify.
    apply fields_missing_false in Hall. rewrite Hall, Hv.
    assert (Hmis : server.session_mismatch p req = false)
      by (apply session_mismatch_false; auto).
    rewrite Hmis, Hverify. split; [reflexivity|].
    exists (server.new_score req now d). split; [reflexivity|].
    simpl. exact Hs.
  - unfold server.score_fields_missing.
    intros [H|[H|[H|[H|H]]]]; rewrite H; simpl;
      rewrite ?orb_true_r; reflexivity.
Qed.

(** ** Session tokens *)

Lemma clock_after_window (now later : Z) :
  now + 600 * 1000 <= later ->
  jwt.clockTimestamp now + 600 <= jwt.clockTimestamp later.
Proof.
  unfold jwt.clockTimestamp. intros H.
  replace (now / 1000 + 600) with ((now + 600 * 1000) / 1000)
    by (rewrite Z.div_add by lia; reflexivity).
  apply Z.div_le_mono; lia.
Qed.

Lemma clock_within_window (now soon : Z) :
  soon <= now + 599 * 1000 ->
  jwt.clockTimestamp soon < jwt.clockTimestamp now + 600.
Proof.
  unfold jwt.clockTimestamp. intros H.
  assert (soon / 1000 <= (now + 599 * 1000) / 1000)
    by (apply Z.div_le_mono; lia).
  rewrite Z.div_add in H0 by lia. lia.
Qed.

(** C3.  A token issued by the session handler for wallet [w] and game
    [g] verifies immediately afterwards and yields that wallet and game;
    once the 600-second window has elapsed, verification fails with
    TokenExpiredError. *)
Theorem session_token_roundtrip (w g : string) (now : Z) (tok : jwt.token) :
  server.session JWT_SECRET
    {| SessionBody.wallet := Some w; SessionBody.game := Some g |} now =
    {| status := 200; body := token_json tok |} ->
  (forall soon, now <= soon <= now + 599 * 1000 ->
   exists c,
     jwt.verify (Some tok) JWT_SECRET soon = Returned c /\
     jwt.wallet c = Some w /\ jwt.game c = Some g) /\
  (forall later, now + 600 * 1000 <= later ->
   jwt.verify (Some tok) JWT_SECRET later =
   Threw (TokenExpiredError "jwt expired")).
Proof.
  unfold server.session. cbn [SessionBody.wallet SessionBody.game].
  destruct (falsy (Some w) || falsy (Some g)); [discriminate|].
  intros H. injection H as <-.
  unfold jwt.sign, jwt.verify. rewrite tag_eqb_refl. simpl.
  unfold server.SESSION_DURATION. split.
  - intros soon [_ Hsoon]. apply clock_within_window in Hsoon.
    change (10 * 60) with 600.
    destruct (jwt.clockTimestamp now + 600 <=? jwt.clockTimestamp soon)
      eqn:E; [apply Z.leb_le in E; lia|].
    eexists. repeat split.
  - intros later Hlater. apply clock_after_window in Hlater.
    change (10 * 60) with 600.
    destruct (jwt.clockTimestamp now + 600 <=? jwt.clockTimestamp later)
      eqn:E; [reflexivity|apply Z.leb_gt in E; lia].
Qed.

(** C7.  Expiry is inclusive: at a time equal to the token's expiresAt
    verification fails, for a token that is otherwise valid with
    TokenExpiredError, and a score submission carrying the token at that
    time persists nothing; one second earlier the token is still
    accepted. *)
Theorem expiry_is_inclusive (c : jwt.claims) (t : jwt.tag) (now : Z) :
  jwt.clockTimestamp now = jwt.exp c ->
  (exists e, jwt.verify (Some (jwt.Compact c t)) JWT_SECRET now = Threw e) /\
  jwt.verify (Some (jwt.Compact c (jwt.HMAC JWT_SECRET c))) JWT_SECRET now =
    Threw (TokenExpiredError "jwt expired") /\
  (forall req d,
     ScoreBody.sessionToken req = Some (jwt.Compact c t) ->
     snd (score req now d) = d /\ status (fst (score req now d)) <> 200) /\
  (forall earlier,
     jwt.clockTimestamp earlier = jwt.exp c - 1 ->
     jwt.verify (Some (jwt.Compact c (jwt.HMAC JWT_SECRET c))) JWT_SECRET
       earlier = Returned c).
Proof.
  intros Hnow.
  assert (Hexp : (jwt.exp c <=? jwt.clockTimestamp now) = true)
    by (apply Z.leb_le; lia).
  assert (Hthrow : exists e,
    jwt.verify (Some (jwt.Compact c t)) JWT_SECRET now = Threw e).
  { unfold jwt.verify.
    destruct (jwt.tag_eqb t (jwt.HMAC JWT_SECRET c)); cbn [negb].
    - rewrite Hexp. eauto.
    - eauto. }
  repeat split.
  - exact Hthrow.
  - unfold jwt.verify. rewrite tag_eqb_refl. cbn [negb]. now rewrite Hexp.
  - rewrite score_cases, H. destruct Hthrow as [e ->].
    destruct (server.score_fields_missing req); reflexivity.
  - rewrite score_cases, H. destruct Hthrow as [e ->].
    destruct (server.score_fields_missing req); simpl; lia.
  - intros earlier He. unfold jwt.verify. rewrite tag_eqb_refl. cbn [negb].
    destruct (jwt.exp c <=? jwt.clockTimestamp earlier) eqn:E;
      [apply Z.leb_le in E; lia|reflexivity].
Qed.


(** ** Signature checks that throw or fail *)

Lemma decode_failure_register_throws (req : RegisterBody.t) :
  server.decode_failure (RegisterBody.wallet req)
    (RegisterBody.signature req) = true ->
  exists e, register_verify req = Threw e.
Proof.
  unfold server.decode_failure, server.decodes_to, register_verify,
    server.register_verify, nacl.sign_detached_verify.
  destruct (bs58.decode (RegisterBody.wallet req)) as [pk|e]; [|eauto].
  destruct (bs58.decode (RegisterBody.signature req)) as [sg|e]; [|eauto].
  destruct (List.length sg =? nacl.crypto_sign_BYTES)%nat; simpl; [|eauto].
  destruct (List.length pk =? nacl.crypto_sign_PUBLICKEYBYTES)%nat; simpl;
    [discriminate|eauto].
Qed.

Lemma decode_failure_score_throws (req : ScoreBody.t) :
  server.decode_failure (ScoreBody.wallet req)
    (ScoreBody.clientSignature req) = true ->
  exists e, score_verify req = Threw e.
Proof.
  unfold server.decode_failure, server.decodes_to, score_verify,
    server.score_verify, nacl.sign_detached_verify.
  destruct (bs58.decode (ScoreBody.clientSignature req)) as [sg|e];
    [|rewrite andb_false_r; eauto].
  destruct (bs58.decode (ScoreBody.wallet req)) as [pk|e]; [|eauto].
  destruct (List.length sg =? nacl.crypto_sign_BYTES)%nat; simpl;
    [|rewrite andb_false_r; eauto].
  destruct (List.length pk =? nacl.crypto_sign_PUBLICKEYBYTES)%nat; simpl;
    [discriminate|eauto].
Qed.

(** C2, as amended.  When base-58 decoding of the wallet or the signature
    fails (malformed text, or the wrong length for a key or a signature)
    at the signature check of the register or the score handler, the
    fault is caught by the handler's catch-all and answered with 500
    "Internal server error"; nothing is persisted. *)
Theorem decode_failure_caught_as_500 :
  (forall (req : RegisterBody.t) (now : Z) (d : db),
     falsy (RegisterBody.wallet req) = false ->
     RegisterBody.skip req = false ->
     falsy (RegisterBody.signature req) = false ->
     falsy (RegisterBody.message req) = false ->
     server.decode_failure (RegisterBody.wallet req)
       (RegisterBody.signature req) = true ->
     register req now d =
     ({| status := 500; body := error_json "Internal server error" |}, d)) /\
  (forall (req : ScoreBody.t) (now : Z) (d : db) (p : jwt.claims),
     server.score_fields_missing req = false ->
     jwt.verify (ScoreBody.sessionToken req) JWT_SECRET now = Returned p ->
     server.session_mismatch p req = false ->
     server.decode_failure (ScoreBody.wallet req)
       (ScoreBody.clientSignature req) = true ->
     score req now d =
     ({| status := 500; body := error_json "Internal server error" |}, d)).
Proof.
  split.
  - intros req now d Hw Hskip Hsig Hmsg Hdec.
    apply decode_failure_register_throws in Hdec. destruct Hdec as [e He].
    rewrite register_cases, Hw, Hskip, Hsig, Hmsg, He. reflexivity.
  - intros req now d p Hm Hv Hmis Hdec.
    apply decode_failure_score_throws in Hdec. destruct Hdec as [e He].
    rewrite score_cases, Hm, Hv, Hmis, He. reflexivity.
Qed.

(** C5, as amended.  When registration is called with a proof (skip not
    set, signature and message present) and the signature check returns
    false, the request fails with status 400 and error "Invalid
    signature", and no user is created. *)
Theorem register_invalid_signature_400
    (req : RegisterBody.t) (now : Z) (d : db) :
  falsy (RegisterBody.wallet req) = false ->
  RegisterBody.skip req = false ->
  falsy (RegisterBody.signature req) = false ->
  falsy (RegisterBody.message req) = false ->
  register_verify req = Returned false ->
  register req now d =
  ({| status := 400; body := error_json "Invalid signature" |}, d).
Proof.
  intros Hw Hskip Hsig Hmsg Hv.
  rewrite register_cases, Hw, Hskip, Hsig, Hmsg, Hv. reflexivity.
Qed.

(** ** Registration *)

Lemma register_passes_cases (req : RegisterBody.t) (now : Z) (d : db) :
  server.register_passes crypto_sign_open req = true ->
  register req now d =
  match User.findOne (users d) (RegisterBody.wallet req) with
  | Some user => ({| status := 200; body := user_json true user |}, d)
  | None =>
      if User.validate (server.new_user req now) then
        ({| status := 200;
            body := user_json true (server.new_user req now) |},
         {| users := (users d ++ [server.new_user req now])%list;
            scores := scores d |})
      else
        ({| status := 500; body := error_json "Internal server error" |}, d)
  end.
Proof.
  unfold server.register_passes. fold register_verify.
  rewrite register_cases.
  destruct (falsy (RegisterBody.wallet req)); [discriminate|].
  destruct (RegisterBody.skip req); simpl; [reflexivity|].
  destruct (falsy (RegisterBody.signature req)); [discriminate|].
  destruct (falsy (RegisterBody.message req)); [discriminate|]. simpl.
  destruct (register_verify req) as [[|]|e]; try discriminate. reflexivity.
Qed.


(** ** The users collection over time *)

Lemma count_wallet_app (w : option string) (l : list User.t) (u : User.t) :
  server.count_wallet w (l ++ [u]) =
  (server.count_wallet w l +
   if strict_neq (User.wallet u) w then 0 else 1)%nat.
Proof.
  unfold server.count_wallet. rewrite filter_app, length_app. simpl.
  destruct (strict_neq (User.wallet u) w); reflexivity.
Qed.

Lemma findOne_none_count (w : option string) (l : list User.t) :
  User.findOne l w = None -> server.count_wallet w l = 0%nat.
Proof.
  unfold User.findOne, server.count_wallet.
  induction l as [|u l IH]; simpl; [reflexivity|].
  destruct (strict_neq (User.wallet u) w); simpl; [exact IH|discriminate].
Qed.

Lemma findOne_some_count (w : option string) (l : list User.t) (u : User.t) :
  User.findOne l w = Some u -> (1 <= server.count_wallet w l)%nat.
Proof.
  unfold User.findOne, server.count_wallet.
  induction l as [|v l IH]; simpl; [discriminate|].
  destruct (strict_neq (User.wallet v) w); simpl; [exact IH|lia].
Qed.

Lemma findOne_app_some (w : option string) (l : list User.t) (u x : User.t) :
  User.findOne l w = Some u -> User.findOne (l ++ [x]) w = Some u.
Proof.
  unfold User.findOne. induction l as [|v l IH]; simpl; [discriminate|].
  destruct (strict_neq (User.wallet v) w); simpl; auto.
Qed.

Lemma findOne_app_new (l : list User.t) (u : User.t) :
  User.findOne l (User.wallet u) = None ->
  User.findOne (l ++ [u]) (User.wallet u) = Some u.
Proof.
  unfold User.findOne. induction l as [|v l IH]; simpl.
  - intros _.
    assert (E : strict_neq (User.wallet u) (User.wallet u) = false)
      by now apply strict_neq_false.
    now rewrite E.
  - destruct (strict_neq (User.wallet v) (User.wallet u)); simpl;
      [exact IH|discriminate].
Qed.

(** A request leaves the users as they are or appends one user whose
    wallet was not stored before. *)
Lemma handle_users (r : server.request) (d : db) :
  users (server.handle JWT_SECRET crypto_sign_open r d) = users d \/
  exists u,
    users (server.handle JWT_SECRET crypto_sign_open r d) =
      (users d ++ [u])%list /\
    User.findOne (users d) (User.wallet u) = None.
Proof.
  destruct r as [req now|req now]; unfold server.handle.
  - fold register. rewrite register_cases.
    destruct (falsy (RegisterBody.wallet req)); [now left|].
    destruct (negb (RegisterBody.skip req) && _); [now left|].
    destruct (if RegisterBody.skip req then _ else _) as [[|]|e];
      try now left.
    destruct (User.findOne (users d) (RegisterBody.wallet req)) eqn:Ef;
      [now left|].
    destruct (User.validate (server.new_user req now)); [|now left].
    right. exists (server.new_user req now). split; [reflexivity|exact Ef].
  - fold score. rewrite score_cases.
    destruct (server.score_fields_missing req); [now left|].
    destruct (jwt.verify _ _ _) as [p|e]; [|now left].
    destruct (server.session_mismatch p req); [now left|].
    destruct (score_verify req) as [[|]|e]; now left.
Qed.

Lemma handle_unique (r : server.request) (d : db) :
  server.unique_wallets d ->
  server.unique_wallets (server.handle JWT_SECRET crypto_sign_open r d).
Proof.
  unfold server.unique_wallets. intros Hu w.
  destruct (handle_users r d) as [->|[u [-> Hnone]]]; [apply Hu|].
  rewrite count_wallet_app.
  destruct (strict_neq (User.wallet u) w) eqn:E.
  - specialize (Hu w). lia.
  - apply strict_neq_false in E. subst w.
    rewrite (findOne_none_count _ _ Hnone). lia.
Qed.

Lemma reachable_unique (d0 d : db) :
  server.reachable_from JWT_SECRET crypto_sign_open d0 d ->
  server.unique_wallets d0 -> server.unique_wallets d.
Proof.
  induction 1 as [|d r Hreach IH]; intros H0; [exact H0|].
  apply handle_unique, IH, H0.
Qed.

Lemma empty_unique : server.unique_wallets empty_db.
Proof. intros w. unfold server.count_wallet. simpl. lia. Qed.

Lemma reachable_keeps_user (d0 d : db) (w : option string) (u : User.t) :
  server.reachable_from JWT_SECRET crypto_sign_open d0 d ->
  User.findOne (users d0) w = Some u ->
  User.findOne (users d) w = Some u.
Proof.
  induction 1 as [|d r Hreach IH]; intros H0; [exact H0|].
  destruct (handle_users r d) as [->|[x [-> _]]]; [auto|].
  apply findOne_app_some. auto.
Qed.

Lemma reachable_trans (d0 d1 d2 : db) :
  server.reachable_from JWT_SECRET crypto_sign_open d0 d1 ->
  server.reachable_from JWT_SECRET crypto_sign_open d1 d2 ->
  server.reachable_from JWT_SECRET crypto_sign_open d0 d2.
Proof.
  intros H01 H12. induction H12 as [|d r H IH]; [exact H01|].
  now apply server.reach_step.
Qed.

(** C6, as amended.  From any state the server can reach, when a
    registration call that passes its verification branch succeeds, a
    second call with the same wallet that passes its verification branch
    returns the same User and writes nothing; the store then holds
    exactly one User for that wallet, and in every later state it still
    holds exactly that one User, name unchanged. *)
Theorem register_twice_same_user
    (d d1 : db) (req1 req2 : RegisterBody.t) (now1 now2 : Z) (u : User.t) :
  server.reachable_from JWT_SECRET crypto_sign_open empty_db d ->
  RegisterBody.wallet req2 = RegisterBody.wallet req1 ->
  server.register_passes crypto_sign_open req1 = true ->
  server.register_passes crypto_sign_open req2 = true ->
  register req1 now1 d = ({| status := 200; body := user_json true u |}, d1) ->
  register req2 now2 d1 =
    ({| status := 200; body := user_json true u |}, d1) /\
  server.count_wallet (RegisterBody.wallet req1) (users d1) = 1%nat /\
  (forall d2,
     server.reachable_from JWT_SECRET crypto_sign_open d1 d2 ->
     server.count_wallet (RegisterBody.wallet req1) (users d2) = 1%nat /\
     User.findOne (users d2) (RegisterBody.wallet req1) = Some u).
Proof.
  intros Hreach Hsame Hpass1 Hpass2 Hfirst.
  assert (Hreach1 : server.reachable_from JWT_SECRET crypto_sign_open
                      empty_db d1).
  { replace d1 with (server.handle JWT_SECRET crypto_sign_open
                       (server.POST_register req1 now1) d)
      by (simpl; fold register; now rewrite Hfirst).
    now apply server.reach_step. }
  assert (Hfound : User.findOne (users d1) (RegisterBody.wallet req1) = Some u).
  { rewrite (register_passes_cases req1 now1 d Hpass1) in Hfirst.
    destruct (User.findOne (users d) (RegisterBody.wallet req1)) eqn:Ef.
    - injection Hfirst as <- <-. exact Ef.
    - destruct (User.validate (server.new_user req1 now1));
        [|discriminate].
      injection Hfirst as <- <-. simpl.
      apply (findOne_app_new (users d) (server.new_user req1 now1)).
      exact Ef. }
  assert (Hone : forall d2,
    server.reachable_from JWT_SECRET crypto_sign_open d1 d2 ->
    server.count_wallet (RegisterBody.wallet req1) (users d2) = 1%nat /\
    User.findOne (users d2) (RegisterBody.wallet req1) = Some u).
  { intros d2 H12.
    pose proof (reachable_keeps_user _ _ _ _ H12 Hfound) as Hf2.
    pose proof (findOne_some_count _ _ _ Hf2) as Hge.
    pose proof (reachable_unique _ _ (reachable_trans _ _ _ Hreach1 H12)
                  empty_unique (RegisterBody.wallet req1)) as Hle.
    split; [lia|exact Hf2]. }
  split; [|split].
  - rewrite (register_passes_cases req2 now2 d1 Hpass2), Hsame, Hfound.
    reflexivity.
  - apply (Hone d1), server.reach_here.
  - exact Hone.
Qed.

End Properties.

(** ** The theorems at concrete requests *)

Lemma score_persisted_only_if_authenticated_witness :
  (scores (snd (server.score demo.secret demo.sign_open (demo.submit 42)
                  (demo.t0 + 5000) demo.with_ann)) <> scores demo.with_ann /\
   server.authenticated demo.secret demo.sign_open (demo.submit 42)
     (demo.t0 + 5000)) /\
  (~ server.authenticated demo.secret demo.sign_open
       (demo.submission "tetris" demo.SIG 42) (demo.t0 + 5000) /\
   snd (server.score demo.secret demo.sign_open
          (demo.submission "tetris" demo.SIG 42) (demo.t0 + 5000)
          demo.with_ann) = demo.with_ann).
Proof.
  assert (Hno : ~ server.authenticated demo.secret demo.sign_open
                    (demo.submission "tetris" demo.SIG 42) (demo.t0 + 5000)).
  { intros [c [Htok [_ [_ [Hg _]]]]].
    unfold server.token_verifies in Htok. simpl in Htok.
    injection Htok as Hc _. subst c. discriminate Hg. }
  split; split.
  - vm_compute. discriminate.
  - apply (proj1 (score_persisted_only_if_authenticated demo.secret
                    demo.sign_open (demo.submit 42) (demo.t0 + 5000)
                    demo.with_ann)).
    vm_compute. discriminate.
  - exact Hno.
  - apply (proj2 (score_persisted_only_if_authenticated demo.secret
                    demo.sign_open (demo.submission "tetris" demo.SIG 42)
                    (demo.t0 + 5000) demo.with_ann)).
    exact Hno.
Defined.

(** C2, counterexample.  A signature that is not base-58 makes
    [bs58.decode] throw; both handlers answer with the catch-all's 500,
    and so does a signature of the wrong length. *)
Lemma decode_failure_not_normalised :
  bs58.decode (Some demo.NOT_BASE58) = Threw (Error "Non-base58 character") /\
  server.register demo.sign_open
    (demo.signed_signup demo.W demo.NOT_BASE58) demo.t0 empty_db =
    ({| status := 500; body := error_json "Internal server error" |},
     empty_db) /\
  server.score demo.secret demo.sign_open
    (demo.submission "snake" demo.NOT_BASE58 42) demo.t0 empty_db =
    ({| status := 500; body := error_json "Internal server error" |},
     empty_db) /\
  server.register demo.sign_open
    (demo.signed_signup demo.W "11") demo.t0 empty_db =
    ({| status := 500; body := error_json "Internal server error" |},
     empty_db).
Proof. vm_compute. repeat split. Qed.

Lemma decode_failure_caught_as_500_witness :
  server.decode_failure (Some demo.W) (Some demo.NOT_BASE58) = true /\
  server.register demo.sign_open
    (demo.signed_signup demo.W demo.NOT_BASE58) demo.t0 demo.with_ann =
    ({| status := 500; body := error_json "Internal server error" |},
     demo.with_ann) /\
  server.score demo.secret demo.sign_open
    (demo.submission "snake" demo.NOT_BASE58 42) demo.t0 demo.with_ann =
    ({| status := 500; body := error_json "Internal server error" |},
     demo.with_ann).
Proof.
  split; [reflexivity|]. split.
  - apply (proj1 (decode_failure_caught_as_500 demo.secret demo.sign_open));
      reflexivity.
  - apply (proj2 (decode_failure_caught_as_500 demo.secret demo.sign_open)
             _ _ _ demo.token_claims); reflexivity.
Defined.

Lemma session_token_roundtrip_witness :
  server.session demo.secret
    {| SessionBody.wallet := Some demo.W; SessionBody.game := Some "snake" |}
    demo.t0 = {| status := 200; body := token_json demo.token |} /\
  (exists c,
     jwt.verify (Some demo.token) demo.secret demo.t0 = Returned c /\
     jwt.wallet c = Some demo.W /\ jwt.game c = Some "snake") /\
  jwt.verify (Some demo.token) demo.secret (demo.t0 + 600 * 1000) =
    Threw (TokenExpiredError "jwt expired").
Proof.
  assert (H : server.session demo.secret
    {| SessionBody.wallet := Some demo.W; SessionBody.game := Some "snake" |}
    demo.t0 = {| status := 200; body := token_json demo.token |})
    by reflexivity.
  split; [exact H|]. split.
  - apply (proj1 (session_token_roundtrip demo.secret demo.W "snake"
                    demo.t0 demo.token H) demo.t0).
    unfold demo.t0. lia.
  - apply (proj2 (session_token_roundtrip demo.secret demo.W "snake"
                    demo.t0 demo.token H)).
    lia.
Defined.

Lemma submission_present (g sig : string) (sc : Z) :
  g <> "" -> sig <> "" -> all_six_present (demo.submission g sig sc).
Proof.
  intros Hg Hsig. unfold all_six_present, present, demo.submission. simpl.
  split; [|split; [|split; [|split; [|split]]]].
  - eexists. split; [reflexivity|discriminate].
  - eexists. split; [reflexivity|exact Hg].
  - eexists. reflexivity.
  - eexists. split; [reflexivity|discriminate].
  - eexists. split; [reflexivity|exact Hsig].
  - eexists. split; [reflexivity|discriminate].
Defined.

Lemma submission_no_game (sig : string) (sc : Z) :
  ~ all_six_present (demo.submission "" sig sc).
Proof.
  intros [_ [[g [Hg Hne]] _]]. simpl in Hg. injection Hg as <-.
  now apply Hne.
Defined.

(** C4, counterexample.  All six fields present, the token valid and for
    the request's wallet and game, and a signature that is not base-58:
    step 4 does not answer 401 but ends in the catch-all's 500. *)
Lemma score_decode_failure_is_not_401 :
  all_six_present (demo.submission "snake" demo.NOT_BASE58 42) /\
  jwt.verify (Some demo.token) demo.secret demo.t0 =
    Returned demo.token_claims /\
  jwt.wallet demo.token_claims = Some demo.W /\
  jwt.game demo.token_claims = Some "snake" /\
  server.score_verify demo.sign_open
    (demo.submission "snake" demo.NOT_BASE58 42) =
    Threw (Error "Non-base58 character") /\
  server.score demo.secret demo.sign_open
    (demo.submission "snake" demo.NOT_BASE58 42) demo.t0 demo.with_ann =
    ({| status := 500; body := error_json "Internal server error" |},
     demo.with_ann).
Proof.
  split; [apply submission_present; discriminate|].
  vm_compute. repeat split.
Qed.

Lemma score_checks_in_order_witness :
  server.score demo.secret demo.sign_open
    (demo.submission "" demo.NOT_BASE58 42) demo.t0 demo.with_ann =
    ({| status := 400; body := error_json "Missing required fields" |},
     demo.with_ann) /\
  server.score demo.secret demo.sign_open
    (demo.submission "snake" demo.NOT_BASE58 42) (demo.t0 + 600000)
    demo.with_ann =
    ({| status := 401; body := error_json "Invalid or expired session token" |},
     demo.with_ann) /\
  server.score demo.secret demo.sign_open
    (demo.submission "tetris" demo.NOT_BASE58 42) demo.t0 demo.with_ann =
    ({| status := 401;
        body := error_json "Session token does not match the request" |},
     demo.with_ann) /\
  server.score demo.secret (fun _ _ => false) (demo.submit 42) demo.t0
    demo.with_ann =
    ({| status := 401; body := error_json "Invalid client signature" |},
     demo.with_ann) /\
  server.score demo.secret demo.sign_open
    (demo.submission "snake" demo.NOT_BASE58 42) demo.t0 demo.with_ann =
    ({| status := 500; body := error_json "Internal server error" |},
     demo.with_ann) /\
  server.score demo.secret demo.sign_open (demo.submit 42) demo.t0
    demo.with_ann =
    ({| status := 200; body := success_json true |},
     {| users := [demo.ann];
        scores := [server.new_score (demo.submit 42) demo.t0 demo.with_ann] |}).
Proof.
  assert (Hsnake : "snake" <> "") by discriminate.
  assert (Htetris : "tetris" <> "") by discriminate.
  assert (Hbad : demo.NOT_BASE58 <> "") by discriminate.
  assert (Hsig : demo.SIG <> "") by discriminate.
  split; [|split; [|split; [|split; [|split]]]].
  - apply (proj1 (score_checks_in_order demo.secret demo.sign_open
                    (demo.submission "" demo.NOT_BASE58 42) demo.t0
                    demo.with_ann)).
    apply submission_no_game.
  - apply (proj1 (proj2 (score_checks_in_order demo.secret demo.sign_open
                           (demo.submission "snake" demo.NOT_BASE58 42)
                           (demo.t0 + 600000) demo.with_ann))
             (submission_present _ _ _ Hsnake Hbad)
             (TokenExpiredError "jwt expired")).
    reflexivity.
  - apply (proj1 (proj2 (proj2 (score_checks_in_order demo.secret
                                  demo.sign_open
                                  (demo.submission "tetris" demo.NOT_BASE58 42)
                                  demo.t0 demo.with_ann)))
             (submission_present _ _ _ Htetris Hbad) demo.token_claims);
      [reflexivity|right; discriminate].
  - apply (proj1 (proj1 (proj2 (proj2 (proj2
             (score_checks_in_order demo.secret (fun _ _ => false)
                (demo.submit 42) demo.t0 demo.with_ann))))
             (submission_present _ _ _ Hsnake Hsig) demo.token_claims
             eq_refl eq_refl eq_refl)).
    reflexivity.
  - apply (proj1 (proj2 (proj1 (proj2 (proj2 (proj2
             (score_checks_in_order demo.secret demo.sign_open
                (demo.submission "snake" demo.NOT_BASE58 42) demo.t0
                demo.with_ann))))
             (submission_present _ _ _ Hsnake Hbad) demo.token_claims
             eq_refl eq_refl eq_refl))
             (Error "Non-base58 character")).
    reflexivity.
  - apply (proj2 (proj2 (proj1 (proj2 (proj2 (proj2
             (score_checks_in_order demo.secret demo.sign_open
                (demo.submit 42) demo.t0 demo.with_ann))))
             (submission_present _ _ _ Hsnake Hsig) demo.token_claims
             eq_refl eq_refl eq_refl))).
    reflexivity.
Defined.

(** C5, counterexample.  A registration with a proof whose signature
    check returns false is answered with status 400, not 401. *)
Lemma register_invalid_signature_not_401 :
  server.register_verify demo.sign_open
    (demo.signed_signup demo.W2 demo.SIG) = Returned false /\
  fst (server.register demo.sign_open
         (demo.signed_signup demo.W2 demo.SIG) demo.t0 empty_db) =
    {| status := 400; body := error_json "Invalid signature" |} /\
  status (fst (server.register demo.sign_open
                 (demo.signed_signup demo.W2 demo.SIG) demo.t0 empty_db))
    <> 401.
Proof. vm_compute. repeat split. discriminate. Qed.

Lemma register_invalid_signature_400_witness :
  server.register_verify demo.sign_open
    (demo.signed_signup demo.W2 demo.SIG) = Returned false /\
  server.register demo.sign_open
    (demo.signed_signup demo.W2 demo.SIG) demo.t0 demo.with_ann =
    ({| status := 400; body := error_json "Invalid signature" |},
     demo.with_ann).
Proof.
  split; [reflexivity|].
  apply (register_invalid_signature_400 demo.sign_open
           (demo.signed_signup demo.W2 demo.SIG) demo.t0 demo.with_ann);
    reflexivity.
Defined.

(** C6, counterexample.  Two registrations of one wallet, both past the
    verification branch: when the first carries an 11-character name it is
    answered with 500 and returns no User, so the two calls do not return
    the same User; and when both carry such a name no User is stored at
    all. *)
Lemma register_twice_long_name :
  let first := server.register demo.sign_open
                 (demo.signup demo.W (Some demo.LONG_NAME)) demo.t0 empty_db in
  let second := server.register demo.sign_open
                  (demo.signup demo.W (Some "Ann")) (demo.t0 + 1)
                  (snd first) in
  let again := server.register demo.sign_open
                 (demo.signup demo.W (Some demo.LONG_NAME)) (demo.t0 + 1)
                 (snd first) in
  server.register_passes demo.sign_open
    (demo.signup demo.W (Some demo.LONG_NAME)) = true /\
  server.register_passes demo.sign_open
    (demo.signup demo.W (Some "Ann")) = true /\
  fst first =
    {| status := 500; body := error_json "Internal server error" |} /\
  fst second =
    {| status := 200;
       body := user_json true
                 {| User.wallet := Some demo.W; User.name := Some "Ann";
                    User.createdAt := demo.t0 + 1 |} |} /\
  fst again =
    {| status := 500; body := error_json "Internal server error" |} /\
  server.count_wallet (Some demo.W) (users (snd again)) = 0%nat.
Proof. vm_compute. repeat split. Qed.

Lemma register_twice_same_user_witness :
  server.register demo.sign_open (demo.signup demo.W (Some "Ann")) demo.t0
    empty_db =
    ({| status := 200; body := user_json true demo.ann |}, demo.with_ann) /\
  server.register demo.sign_open (demo.signup demo.W (Some "Bob"))
    (demo.t0 + 1) demo.with_ann =
    ({| status := 200; body := user_json true demo.ann |}, demo.with_ann) /\
  server.count_wallet (Some demo.W) (users demo.with_ann) = 1%nat.
Proof.
  assert (H : server.register demo.sign_open
                (demo.signup demo.W (Some "Ann")) demo.t0 empty_db =
              ({| status := 200; body := user_json true demo.ann |},
               demo.with_ann)) by reflexivity.
  pose proof (register_twice_same_user demo.secret demo.sign_open
                empty_db demo.with_ann
                (demo.signup demo.W (Some "Ann"))
                (demo.signup demo.W (Some "Bob"))
                demo.t0 (demo.t0 + 1) demo.ann
                (server.reach_here demo.secret demo.sign_open empty_db)
                eq_refl eq_refl eq_refl H) as [Hsecond [Hone _]].
  split; [exact H|]. split; [exact Hsecond|exact Hone].
Defined.

Lemma expiry_is_inclusive_witness :
  jwt.clockTimestamp 1700000600000 = jwt.exp demo.token_claims /\
  jwt.verify (Some demo.token) demo.secret 1700000600000 =
    Threw (TokenExpiredError "jwt expired") /\
  snd (server.score demo.secret demo.sign_open (demo.submit 42)
         1700000600000 demo.with_ann) = demo.with_ann /\
  jwt.verify (Some demo.token) demo.secret 1700000599999 =
    Returned demo.token_claims.
Proof.
  pose proof (expiry_is_inclusive demo.secret demo.sign_open
                demo.token_claims (jwt.HMAC demo.secret demo.token_claims)
                1700000600000 eq_refl) as [_ [Hexp [Hscore Hbefore]]].
  split; [reflexivity|]. split; [exact Hexp|]. split.
  - apply (Hscore (demo.submit 42) demo.with_ann). reflexivity.
  - apply (Hbefore 1700000599999). reflexivity.
Defined.


Lemma score_zero_is_present_witness :
  server.score demo.secret demo.sign_open sample.submit_no_score demo.t0
    demo.with_ann =
    ({| status := 400; body := error_json "Missing required fields" |},
     demo.with_ann) /\
  falsy_number (Some (Number 0)) = true /\
  (exists r,
     server.score demo.secret demo.sign_open (demo.submit 0) demo.t0
       demo.with_ann =
       ({| status := 200; body := success_json true |},
        {| users := [demo.ann]; scores := [r] |}) /\
     Score.score r = Some (Number 0)) /\
  (exists r,
     server.score demo.secret demo.sign_open sample.submit_null demo.t0
       demo.with_ann =
       ({| status := 200; body := success_json true |},
        {| users := [demo.ann]; scores := [r] |}) /\
     Score.score r = Some Null) /\
  server.score demo.secret demo.sign_open
    (demo.submission "" demo.SIG 0) demo.t0 demo.with_ann =
    ({| status := 400; body := error_json "Missing required fields" |},
     demo.with_ann).
Proof.
  assert (Hsnake : "snake" <> "") by discriminate.
  assert (Hsig : demo.SIG <> "") by discriminate.
  assert (Hnull : all_six_present sample.submit_null).
  { unfold all_six_present, present, sample.submit_null. simpl.
    split; [|split; [|split; [|split; [|split]]]];
      eexists; try (split; [reflexivity|discriminate]); reflexivity. }
  split; [|split; [|split; [|split]]].
  - apply (proj1 (score_zero_is_present demo.secret demo.sign_open
                    sample.submit_no_score demo.t0 demo.with_ann)).
    reflexivity.
  - apply (proj1 (proj2 (score_zero_is_present demo.secret demo.sign_open
                           (demo.submit 0) demo.t0 demo.with_ann))
             (Number 0) eq_refl (or_introl eq_refl)).
  - destruct (proj2 (proj1 (proj2 (score_zero_is_present demo.secret
                                     demo.sign_open (demo.submit 0) demo.t0
                                     demo.with_ann))
                       (Number 0) eq_refl (or_introl eq_refl))
                (submission_present _ _ _ Hsnake Hsig) demo.token_claims
                eq_refl eq_refl eq_refl eq_refl)
      as [_ [r [Hrun Hzero]]].
    exists r. split; [exact Hrun|exact Hzero].
  - destruct (proj2 (proj1 (proj2 (score_zero_is_present demo.secret
                                     demo.sign_open sample.submit_null
                                     demo.t0 demo.with_ann))
                       Null eq_refl (or_intror eq_refl))
                Hnull demo.token_claims eq_refl eq_refl eq_refl eq_refl)
      as [_ [r [Hrun Hzero]]].
    exists r. split; [exact Hrun|exact Hzero].
  - apply (proj2 (proj2 (score_zero_is_present demo.secret demo.sign_open
                           (demo.submission "" demo.SIG 0) demo.t0
                           demo.with_ann))).
    right. left. reflexivity.
Defined.



(** * Further properties of the handlers *)

Section Steps.

Variable JWT_SECRET : string.
Variable crypto_sign_open : bytes -> bytes -> bool.

Let register := server.register crypto_sign_open.
Let score := server.score JWT_SECRET crypto_sign_open.
Let handle := server.handle JWT_SECRET crypto_sign_open.
Let reachable_from := server.reachable_from JWT_SECRET crypto_sign_open.

(** ** One request at a time *)

(** What one request does to the database: nothing, or one user
    appended by a registration, or one score appended by a submission. *)
Lemma handle_step (r : server.request) (d : db) :
  handle r d = d \/
  (exists req now,
     r = server.POST_register req now /\
     handle r d =
       {| users := (users d ++ [server.new_user req now])%list;
          scores := scores d |} /\
     User.validate (server.new_user req now) = true /\
     User.findOne (users d) (RegisterBody.wallet req) = None) \/
  (exists req now,
     r = server.POST_score req now /\
     handle r d =
       {| users := users d;
          scores := (scores d ++ [server.new_score req now d])%list |} /\
     server.score_fields_missing req = false /\
     server.score_verify crypto_sign_open req = Returned true).
Proof.
  destruct r as [req now|req now]; unfold handle, server.handle.
  - rewrite (register_cases crypto_sign_open).
    destruct (falsy (RegisterBody.wallet req)); [now left|].
    destruct (negb (RegisterBody.skip req) && _); [now left|].
    destruct (if RegisterBody.skip req then _ else _) as [[|]|e];
      try (now left).
    destruct (User.findOne (users d) (RegisterBody.wallet req)) eqn:Ef;
      [now left|].
    destruct (User.validate (server.new_user req now)) eqn:Ev;
      [|now left].
    right. left. exists req, now. auto.
  - rewrite (score_cases JWT_SECRET crypto_sign_open).
    destruct (server.score_fields_missing req) eqn:Em; [now left|].
    destruct (jwt.verify _ _ _) as [p|e]; [|now left].
    destruct (server.session_mismatch p req); [now left|].
    destruct (server.score_verify crypto_sign_open req) as [[|]|e] eqn:Es;
      try (now left).
    right. right. exists req, now. auto.
Qed.

(** Settles the case of a request that changes nothing and names the
    parts of the two cases that do. *)
Ltac by_step r d :=
  let req := fresh "req" in
  let now := fresh "now" in
  let Hd := fresh "Hd" in
  destruct (handle_step r d)
    as [Hd|[[req [now [_ [Hd [?Hvalid ?Hnone]]]]]
           |[req [now [_ [Hd [?Hpresent ?Hverify]]]]]]];
  rewrite Hd; simpl; trivial.

(** X1.  The collections only grow: whatever requests arrive, the users and
    the scores stored before are still there, unchanged and in the same
    order, and anything new comes after them. *)
Theorem collections_append_only (d d' : db) :
  reachable_from d d' ->
  exists new_users new_scores,
    users d' = (users d ++ new_users)%list /\
    scores d' = (scores d ++ new_scores)%list.
Proof.
  induction 1 as [|d1 r Hreach [us [ss [Hu Hs]]]].
  - exists [], []. now rewrite !app_nil_r.
  - fold (handle r d1). by_step r d1.
    + eauto.
    + exists (us ++ [server.new_user req now])%list, ss.
      rewrite Hu, Hs, app_assoc. auto.
    + exists us, (ss ++ [server.new_score req now d1])%list.
      rewrite Hu, Hs, app_assoc. auto.
Qed.

Lemma validate_wallet (u : User.t) :
  User.validate u = true -> falsy (User.wallet u) = false.
Proof.
  unfold User.validate. intros H. apply andb_true_iff in H.
  destruct H as [H _]. now apply negb_true_iff in H.
Qed.

(** X2.  Every user the running server ever stores passes the schema (wallet
    non-empty, name absent or at most 10 characters), and no two stored
    users share a wallet. *)
Theorem stored_users_valid_and_unique (d : db) :
  reachable_from empty_db d ->
  Forall (fun u => User.validate u = true) (users d) /\
  forall w, (server.count_wallet w (users d) <= 1)%nat.
Proof.
  intros Hreach. split.
  - induction Hreach as [|d1 r Hreach IH]; [constructor|].
    fold (handle r d1). by_step r d1.
    apply Forall_app. split; [exact IH|].
    constructor; [assumption|constructor].
  - apply (reachable_unique JWT_SECRET crypto_sign_open empty_db d Hreach).
    apply empty_unique.
Qed.

Lemma score_verify_decodes (req : ScoreBody.t) (b : bool) :
  server.score_verify crypto_sign_open req = Returned b ->
  server.decodes_to nacl.crypto_sign_PUBLICKEYBYTES (ScoreBody.wallet req)
    = true /\
  server.decodes_to nacl.crypto_sign_BYTES (ScoreBody.clientSignature req)
    = true.
Proof.
  unfold server.score_verify, server.decodes_to, nacl.sign_detached_verify.
  destruct (bs58.decode (ScoreBody.clientSignature req)) as [sg|e];
    [|discriminate].
  destruct (bs58.decode (ScoreBody.wallet req)) as [pk|e]; [|discriminate].
  destruct (List.length sg =? nacl.crypto_sign_BYTES)%nat; simpl;
    [|discriminate].
  destruct (List.length pk =? nacl.crypto_sign_PUBLICKEYBYTES)%nat; simpl;
    [auto|discriminate].
Qed.

Lemma fields_present (req : ScoreBody.t) :
  server.score_fields_missing req = false ->
  falsy (ScoreBody.wallet req) = false /\
  falsy (ScoreBody.game req) = false /\
  ScoreBody.score req <> None.
Proof.
  unfold server.score_fields_missing. rewrite !orb_false_iff.
  intros [[[[[Hw Hg] Hs] _] _] _]. repeat split; trivial.
  destruct (ScoreBody.score req); [discriminate|discriminate Hs].
Qed.

(** X3.  Every score the running server ever stores has a non-empty wallet
    and game, a score value, and a wallet that decodes from base-58 to a
    32-byte key. *)
Theorem stored_scores_well_formed (d : db) :
  reachable_from empty_db d -> Forall score_well_formed (scores d).
Proof.
  induction 1 as [|d1 r Hreach IH]; [constructor|].
  fold (handle r d1). by_step r d1.
  apply Forall_app. split; [exact IH|]. constructor; [|constructor].
  apply fields_present in Hpresent. destruct Hpresent as [Hw [Hg Hs]].
  apply score_verify_decodes in Hverify. destruct Hverify as [Hk _].
  unfold score_well_formed. simpl. auto.
Qed.

(** X4.  The name on a stored score is a snapshot that stays true: in every
    state the server reaches it is either empty or the name of the user
    stored for the score's wallet. *)
Theorem stored_score_names_from_users (d : db) :
  reachable_from empty_db d -> Forall (name_from_user d) (scores d).
Proof.
  induction 1 as [|d1 r Hreach IH]; [constructor|].
  fold (handle r d1). by_step r d1.
  - eapply Forall_impl; [|exact IH].
    intros s [He|[u [Hf Hn]]]; [now left|right].
    exists u. simpl. split; [|exact Hn]. now apply findOne_app_some.
  - apply Forall_app. split.
    + eapply Forall_impl; [|exact IH].
      intros s [He|[u [Hf Hn]]]; [now left|right]. exists u. auto.
    + constructor; [|constructor].
      unfold name_from_user, server.new_score. simpl.
      destruct (User.findOne (users d1) (ScoreBody.wallet req)) as [u|] eqn:Ef;
        [|now left].
      destruct (User.name u) as [n|] eqn:En; [|now left].
      right. exists u. auto.
Qed.

(** X5.  A handler that answers with an error has written nothing, and the
    score handler answers 200 exactly when it has stored a record. *)
Theorem error_responses_write_nothing :
  (forall req now d,
     status (fst (register req now d)) <> 200 ->
     snd (register req now d) = d) /\
  (forall req now d,
     status (fst (score req now d)) <> 200 ->
     snd (score req now d) = d) /\
  (forall req now d,
     status (fst (score req now d)) = 200 ->
     scores (snd (score req now d)) <> scores d).
Proof.
  repeat split; intros req now d.
  - unfold register. rewrite register_cases.
    destruct (falsy (RegisterBody.wallet req)); [reflexivity|].
    destruct (negb (RegisterBody.skip req) && _); [reflexivity|].
    destruct (if RegisterBody.skip req then _ else _) as [[|]|e];
      try reflexivity.
    destruct (User.findOne (users d) (RegisterBody.wallet req));
      [reflexivity|].
    destruct (User.validate (server.new_user req now)); [|reflexivity].
    simpl. intros H. now elim H.
  - unfold score. rewrite score_cases.
    destruct (server.score_fields_missing req); [reflexivity|].
    destruct (jwt.verify _ _ _) as [p|e]; [|reflexivity].
    destruct (server.session_mismatch p req); [reflexivity|].
    destruct (server.score_verify crypto_sign_open req) as [[|]|e];
      try reflexivity.
    simpl. intros H. now elim H.
  - unfold score. rewrite score_cases.
    destruct (server.score_fields_missing req); [discriminate|].
    destruct (jwt.verify _ _ _) as [p|e]; [|discriminate].
    destruct (server.session_mismatch p req); [discriminate|].
    destruct (server.score_verify crypto_sign_open req) as [[|]|e];
      try discriminate.
    intros _. simpl. apply append_one_neq.
Qed.

(** X6.  The statuses a client can see: register answers 200, 400 or 500 and
    never 401; session answers 200 or 400; score answers 200, 400, 401 or
    500. *)
Theorem handler_status_codes :
  (forall req now d,
     In (status (fst (register req now d))) [200; 400; 500]) /\
  (forall req now,
     In (status (server.session JWT_SECRET req now)) [200; 400]) /\
  (forall req now d,
     In (status (fst (score req now d))) [200; 400; 401; 500]).
Proof.
  repeat split; intros req now.
  - intros d. unfold register. rewrite register_cases.
    destruct (falsy (RegisterBody.wallet req)); [simpl; auto|].
    destruct (negb (RegisterBody.skip req) && _); [simpl; auto|].
    destruct (if RegisterBody.skip req then _ else _) as [[|]|e];
      try (simpl; auto; fail).
    destruct (User.findOne (users d) (RegisterBody.wallet req));
      [simpl; auto|].
    destruct (User.validate (server.new_user req now)); simpl; auto.
  - unfold server.session.
    destruct (falsy (SessionBody.wallet req) || falsy (SessionBody.game req));
      simpl; auto.
  - intros d. unfold score. rewrite score_cases.
    destruct (server.score_fields_missing req); [simpl; auto|].
    destruct (jwt.verify _ _ _) as [p|e]; [|simpl; auto].
    destruct (server.session_mismatch p req); [simpl; auto|].
    destruct (server.score_verify crypto_sign_open req) as [[|]|e];
      simpl; auto 6.
Qed.

(** ** Sessions and submissions together *)

(** X7.  A token the session handler issued for one wallet and game does not
    open a submission for another wallet or another game: while the token
    is unexpired the score handler answers 401 "Session token does not
    match the request" and stores nothing. *)
Theorem token_is_scoped_to_wallet_and_game
    (w g : option string) (issued now : Z) (tok : jwt.token)
    (req : ScoreBody.t) (d : db) :
  server.session JWT_SECRET
    {| SessionBody.wallet := w; SessionBody.game := g |} issued =
    {| status := 200; body := token_json tok |} ->
  ScoreBody.sessionToken req = Some tok ->
  server.score_fields_missing req = false ->
  ScoreBody.wallet req <> w \/ ScoreBody.game req <> g ->
  jwt.clockTimestamp now < jwt.clockTimestamp issued + 600 ->
  score req now d =
  ({| status := 401;
      body := error_json "Session token does not match the request" |}, d).
Proof.
  unfold server.session. cbn [SessionBody.wallet SessionBody.game].
  destruct (falsy w || falsy g); [discriminate|].
  intros Htok Hreq Hpresent Hother Hclock. injection Htok as <-.
  unfold score. rewrite score_cases, Hpresent, Hreq.
  unfold jwt.sign, jwt.verify. rewrite tag_eqb_refl. cbn [negb jwt.exp].
  change server.SESSION_DURATION with 600.
  destruct (jwt.clockTimestamp issued + 600 <=? jwt.clockTimestamp now) eqn:E;
    [apply Z.leb_le in E; lia|].
  destruct (server.session_mismatch _ req) eqn:Em; [reflexivity|].
  apply session_mismatch_false in Em. simpl in Em. destruct Em as [Hw Hg].
  destruct Hother as [H|H]; elim H; congruence.
Qed.

(** X8.  The whole flow: a token the session handler issued for a wallet and
    game, presented before it expires with that wallet and game, a score
    and a signature that verifies, is accepted and one record is stored.
    The wallet need not be registered and the database is not consulted
    to decide. *)
Theorem session_then_score_succeeds
    (w g : option string) (issued now : Z) (tok : jwt.token)
    (req : ScoreBody.t) (d : db) :
  server.session JWT_SECRET
    {| SessionBody.wallet := w; SessionBody.game := g |} issued =
    {| status := 200; body := token_json tok |} ->
  ScoreBody.wallet req = w ->
  ScoreBody.game req = g ->
  ScoreBody.sessionToken req = Some tok ->
  ScoreBody.score req <> None ->
  falsy (ScoreBody.clientSignature req) = false ->
  falsy (ScoreBody.signatureMessage req) = false ->
  server.score_verify crypto_sign_open req = Returned true ->
  jwt.clockTimestamp now < jwt.clockTimestamp issued + 600 ->
  score req now d =
  ({| status := 200; body := success_json true |},
   {| users := users d;
      scores := (scores d ++ [server.new_score req now d])%list |}).
Proof.
  unfold server.session. cbn [SessionBody.wallet SessionBody.game].
  destruct (falsy w || falsy g) eqn:Ewg; [discriminate|].
  apply orb_false_iff in Ewg. destruct Ewg as [Ew Eg].
  intros Htok Hw Hg Hreq Hscore Hsig Hmsg Hverify Hclock.
  injection Htok as <-.
  unfold score. rewrite score_cases.
  unfold server.score_fields_missing.
  rewrite Hw, Hg, Hreq, Ew, Eg, Hsig, Hmsg.
  destruct (ScoreBody.score req) as [s|]; [|now elim Hscore].
  unfold jwt.sign. cbn [is_undefined orb jwt.falsy].
  unfold jwt.verify. rewrite tag_eqb_refl. cbn [negb jwt.exp].
  change server.SESSION_DURATION with 600.
  destruct (jwt.clockTimestamp issued + 600 <=? jwt.clockTimestamp now) eqn:E;
    [apply Z.leb_le in E; lia|].
  unfold server.session_mismatch. cbn [jwt.wallet jwt.game].
  rewrite Hw, Hg.
  assert (Hww : strict_neq w w = false) by now apply strict_neq_false.
  assert (Hgg : strict_neq g g = false) by now apply strict_neq_false.
  rewrite Hww, Hgg, Hverify. reflexivity.
Qed.

(** X9.  A submission that succeeded succeeds again, at any later time before
    the token's expiry and whatever the database then holds: the token is
    not consumed and nothing in the store is consulted to accept a
    submission.  Each repeat stores one more record. *)
Theorem submission_repeatable_until_expiry
    (req : ScoreBody.t) (now : Z) (d : db) :
  status (fst (score req now d)) = 200 ->
  exists p,
    jwt.verify (ScoreBody.sessionToken req) JWT_SECRET now = Returned p /\
    forall now' d',
      jwt.clockTimestamp now' < jwt.exp p ->
      score req now' d' =
      ({| status := 200; body := success_json true |},
       {| users := users d';
          scores := (scores d' ++ [server.new_score req now' d'])%list |}).
Proof.
  unfold score. rewrite score_cases.
  destruct (server.score_fields_missing req) eqn:Em; [discriminate|].
  destruct (jwt.verify _ _ now) as [p|e] eqn:Ev; [|discriminate].
  destruct (server.session_mismatch p req) eqn:Es; [discriminate|].
  destruct (server.score_verify crypto_sign_open req) as [[|]|e] eqn:Ec;
    try discriminate.
  intros _. exists p. split; [reflexivity|]. intros now' d' Hclock.
  apply verify_returned in Ev. destruct Ev as [Htok _].
  assert (Ev' : jwt.verify (ScoreBody.sessionToken req) JWT_SECRET now'
                = Returned p) by (apply verify_returned; split; assumption).
  rewrite score_cases, Em, Ev', Es, Ec. reflexivity.
Qed.

Lemma score_verify_with_score (req : ScoreBody.t) (s : Z) :
  server.score_verify crypto_sign_open (with_score req s) =
  server.score_verify crypto_sign_open req.
Proof. reflexivity. Qed.

(** X10.  The signature does not cover the score: when a submission succeeds,
    the same token, signature and signatureMessage are accepted with any
    other score value, which is then stored. *)
Theorem signature_not_bound_to_score
    (req : ScoreBody.t) (now : Z) (d : db) (s : Z) :
  status (fst (score req now d)) = 200 ->
  exists r,
    score (with_score req s) now d =
      ({| status := 200; body := success_json true |},
       {| users := users d; scores := (scores d ++ [r])%list |}) /\
    Score.score r = Some (Number s) /\
    Score.wallet r = ScoreBody.wallet req /\
    Score.game r = ScoreBody.game req.
Proof.
  unfold score. rewrite !score_cases, score_verify_with_score.
  unfold server.score_fields_missing, server.session_mismatch.
  cbn [with_score ScoreBody.wallet ScoreBody.game ScoreBody.score
       ScoreBody.sessionToken ScoreBody.clientSignature
       ScoreBody.signatureMessage].
  destruct (falsy (ScoreBody.wallet req)); [discriminate|].
  destruct (falsy (ScoreBody.game req)); [discriminate|].
  destruct (ScoreBody.score req) as [s0|]; [|discriminate].
  cbn [is_undefined orb].
  destruct (jwt.falsy (ScoreBody.sessionToken req)); [discriminate|].
  destruct (falsy (ScoreBody.clientSignature req)); [discriminate|].
  destruct (falsy (ScoreBody.signatureMessage req)); [discriminate|].
  destruct (jwt.verify _ _ _) as [p|e]; [|discriminate].
  destruct (strict_neq _ _ || strict_neq _ _); [discriminate|].
  destruct (server.score_verify crypto_sign_open req) as [[|]|e];
    try discriminate.
  intros _. exists (server.new_score (with_score req s) now d).
  repeat split.
Qed.

(** ** Registration *)

(** X11.  With [skip] set the proof is not looked at: the outcome is the same
    whatever signature and message the request carries, present or not,
    and whatever the signature primitive would say. *)
Theorem register_skip_ignores_proof
    (other_sign_open : bytes -> bytes -> bool)
    (req : RegisterBody.t) (sig msg : option string) (now : Z) (d : db) :
  RegisterBody.skip req = true ->
  server.register other_sign_open (with_proof req sig msg) now d =
  register req now d.
Proof.
  intros Hskip. unfold register. rewrite !register_cases.
  cbn [with_proof RegisterBody.wallet RegisterBody.skip].
  rewrite Hskip. reflexivity.
Qed.

(** X12.  The presence checks come before any decoding: a request without a
    wallet is answered 400 "Missing wallet" even with [skip] set, and a
    request with [skip] not set that lacks the signature or the message is
    answered 400 "Missing required fields" even when the wallet is not
    base-58.  Neither writes anything. *)
Theorem register_presence_checks_first
    (req : RegisterBody.t) (now : Z) (d : db) :
  (falsy (RegisterBody.wallet req) = true ->
   register req now d =
   ({| status := 400; body := error_json "Missing wallet" |}, d)) /\
  (falsy (RegisterBody.wallet req) = false ->
   RegisterBody.skip req = false ->
   falsy (RegisterBody.signature req) = true \/
   falsy (RegisterBody.message req) = true ->
   register req now d =
   ({| status := 400; body := error_json "Missing required fields" |}, d)).
Proof.
  unfold register. rewrite register_cases. split.
  - intros ->. reflexivity.
  - intros -> -> [->| ->]; simpl; rewrite ?orb_true_r; reflexivity.
Qed.

Lemma reachable_scores_kept (d d' : db) (r : Score.t) :
  reachable_from d d' -> In r (scores d) -> In r (scores d').
Proof.
  induction 1 as [|d1 x Hreach IH]; intros Hin; [exact Hin|].
  fold (handle x d1). by_step x d1; auto.
  apply in_or_app. left. auto.
Qed.

End Steps.

(** ** Sorting by score *)

Lemma score_leb_refl (a : option number_or_null) :
  queries.score_leb a a = true.
Proof.
  unfold queries.score_leb. destruct (queries.sort_key a);
    [apply Z.leb_refl|reflexivity].
Qed.

Lemma score_leb_total (a b : option number_or_null) :
  queries.score_leb a b = false -> queries.score_leb b a = true.
Proof.
  unfold queries.score_leb.
  destruct (queries.sort_key a), (queries.sort_key b);
    try discriminate; trivial.
  intros H. apply Z.leb_gt in H. apply Z.leb_le. lia.
Qed.

Lemma score_leb_trans (a b c : option number_or_null) :
  queries.score_leb a b = true -> queries.score_leb b c = true ->
  queries.score_leb a c = true.
Proof.
  unfold queries.score_leb.
  destruct (queries.sort_key a), (queries.sort_key b), (queries.sort_key c);
    try discriminate; trivial.
  rewrite !Z.leb_le. lia.
Qed.

Lemma insert_desc_perm (r : Score.t) (l : list Score.t) :
  Permutation (queries.insert_desc r l) (r :: l).
Proof.
  induction l as [|x l IH]; simpl; [apply Permutation_refl|].
  destruct (queries.score_leb (Score.score x) (Score.score r));
    [apply Permutation_refl|].
  apply perm_trans with (x :: r :: l); [now apply perm_skip|apply perm_swap].
Qed.

Lemma sort_desc_perm (l : list Score.t) : Permutation (queries.sort_desc l) l.
Proof.
  induction l as [|r l IH]; simpl; [constructor|].
  apply perm_trans with (r :: queries.sort_desc l);
    [apply insert_desc_perm|now apply perm_skip].
Qed.

Lemma insert_desc_sorted (r : Score.t) (l : list Score.t) :
  StronglySorted queries.before l ->
  StronglySorted queries.before (queries.insert_desc r l).
Proof.
  induction 1 as [|x l Hsorted IH Hall]; simpl.
  - constructor; constructor.
  - destruct (queries.score_leb (Score.score x) (Score.score r)) eqn:E.
    + constructor; [now constructor|]. constructor; [exact E|].
      eapply Forall_impl; [|exact Hall]. intros y Hy.
      unfold queries.before in *. eapply score_leb_trans; eassumption.
    + constructor; [exact IH|].
      apply (Permutation_Forall (Permutation_sym (insert_desc_perm r l))).
      constructor; [|exact Hall]. now apply score_leb_total.
Qed.

Lemma sort_desc_sorted (l : list Score.t) :
  StronglySorted queries.before (queries.sort_desc l).
Proof.
  induction l as [|r l IH]; simpl; [constructor|].
  now apply insert_desc_sorted.
Qed.

Lemma sorted_app_before (l1 l2 : list Score.t) :
  StronglySorted queries.before (l1 ++ l2) ->
  StronglySorted queries.before l1 /\
  forall x y, In x l1 -> In y l2 -> queries.before x y.
Proof.
  induction l1 as [|a l1 IH]; simpl; intros H.
  - split; [constructor|]. intros x y [].
  - inversion H as [|? ? Hs Hall]; subst.
    destruct (IH Hs) as [Hs1 Hcross]. split.
    + constructor; [exact Hs1|].
      apply Forall_app in Hall. tauto.
    + intros x y [<-|Hx] Hy; [|now apply Hcross].
      rewrite Forall_forall in Hall. apply Hall, in_or_app. now right.
Qed.

(** The head of a descending sort: nothing when the list is empty,
    otherwise a member no other member beats. *)
Lemma best_of (l : list Score.t) :
  match hd_error (queries.sort_desc l) with
  | None => l = []
  | Some b =>
      In b l /\
      forall r, In r l ->
        queries.score_leb (Score.score r) (Score.score b) = true
  end.
Proof.
  pose proof (sort_desc_perm l) as Hperm.
  pose proof (sort_desc_sorted l) as Hsorted.
  destruct (queries.sort_desc l) as [|b rest]; simpl.
  - now apply Permutation_nil.
  - split.
    + apply (Permutation_in _ Hperm). now left.
    + intros r Hr. apply (Permutation_in _ (Permutation_sym Hperm)) in Hr.
      inversion Hsorted as [|? ? _ Hall]; subst.
      destruct Hr as [<-|Hr]; [apply score_leb_refl|].
      rewrite Forall_forall in Hall. now apply Hall.
Qed.

Lemma matches_true (w g : option string) (r : Score.t) :
  queries.matches w g r = true <-> Score.wallet r = w /\ Score.game r = g.
Proof.
  unfold queries.matches.
  now rewrite andb_true_iff, !negb_true_iff, !strict_neq_false.
Qed.

(** ** The GET endpoints *)

(** X13.  With wallet and game given, bestscore answers 200; its [best] is
    null exactly when no stored score has that wallet and game, and
    otherwise is a stored score of that wallet and game whose score no
    other such record exceeds. *)
Theorem bestscore_is_maximum (w g : option string) (d : db) :
  falsy w = false -> falsy g = false ->
  exists best,
    queries.bestscore w g d =
      {| queries.status := 200; queries.body := queries.best_json best |} /\
    (best = None <->
     forall r, In r (scores d) -> ~ (Score.wallet r = w /\ Score.game r = g)) /\
    (forall b, best = Some b ->
       In b (scores d) /\ Score.wallet b = w /\ Score.game b = g /\
       forall r, In r (scores d) ->
         Score.wallet r = w -> Score.game r = g ->
         queries.score_leb (Score.score r) (Score.score b) = true).
Proof.
  intros Hw Hg. unfold queries.bestscore. rewrite Hw, Hg. simpl.
  eexists. split; [reflexivity|].
  pose proof (best_of (filter (queries.matches w g) (scores d))) as Hbest.
  destruct (hd_error _) as [b|]; split.
  - split; [discriminate|]. intros Hnone. destruct Hbest as [Hin _].
    apply filter_In in Hin. destruct Hin as [Hin Hm].
    apply matches_true in Hm. now elim (Hnone b Hin).
  - intros b' Hb. injection Hb as <-. destruct Hbest as [Hin Hmax].
    apply filter_In in Hin. destruct Hin as [Hin Hm].
    apply matches_true in Hm. destruct Hm as [Hbw Hbg].
    repeat split; trivial. intros r Hr Hrw Hrg. apply Hmax.
    apply filter_In. split; [exact Hr|]. now apply matches_true.
  - split; [|reflexivity]. intros _ r Hr Hm.
    assert (Hin : In r (filter (queries.matches w g) (scores d)))
      by (apply filter_In; split; [exact Hr|now apply matches_true]).
    rewrite Hbest in Hin. exact Hin.
  - discriminate.
Qed.

(** X14.  With a game given, leaderboard answers 200 with at most 50 stored
    scores of that game, highest first; every score of the game it leaves
    out is no higher than any it lists, and it leaves none out when the
    game has at most 50 scores.  Scores are listed per record, not per
    wallet. *)
Theorem leaderboard_is_top_50 (g : option string) (d : db) :
  falsy g = false ->
  exists top rest,
    queries.leaderboard g d =
      {| queries.status := 200; queries.body := queries.scores_json top |} /\
    (List.length top <= 50)%nat /\
    StronglySorted queries.before top /\
    Permutation (top ++ rest) (filter (queries.matches_game g) (scores d)) /\
    (forall x, In x top -> In x (scores d) /\ Score.game x = g) /\
    (forall x y, In x top -> In y rest -> queries.before x y) /\
    (rest <> [] -> List.length top = 50%nat).
Proof.
  intros Hg. unfold queries.leaderboard. rewrite Hg.
  set (all := filter (queries.matches_game g) (scores d)).
  set (sorted := queries.sort_desc all).
  exists (firstn 50 sorted), (skipn 50 sorted).
  assert (Hperm : Permutation (firstn 50 sorted ++ skipn 50 sorted) all)
    by (rewrite firstn_skipn; apply sort_desc_perm).
  assert (Hsorted : StronglySorted queries.before
                      (firstn 50 sorted ++ skipn 50 sorted))
    by (rewrite firstn_skipn; apply sort_desc_sorted).
  apply sorted_app_before in Hsorted. destruct Hsorted as [Htop Hcross].
  repeat split; trivial.
  - apply firstn_le_length.
  - assert (Hin : In x all)
      by (apply (Permutation_in _ Hperm), in_or_app; now left).
    apply filter_In in Hin. tauto.
  - assert (Hin : In x all)
      by (apply (Permutation_in _ Hperm), in_or_app; now left).
    apply filter_In in Hin. destruct Hin as [_ Hm].
    unfold queries.matches_game in Hm.
    now apply negb_true_iff, strict_neq_false in Hm.
  - intros Hrest. rewrite length_firstn.
    destruct (Nat.le_gt_cases (List.length sorted) 50) as [Hle|Hgt]; [|lia].
    elim Hrest. now apply skipn_all2.
Qed.

(** X15.  The two rankings agree: no best score reported for a wallet in a
    game is higher than the first entry of that game's leaderboard. *)
Theorem leaderboard_head_dominates_bestscore
    (w g : option string) (d : db) (x b : Score.t) (others : list Score.t) :
  queries.leaderboard g d =
    {| queries.status := 200;
       queries.body := queries.scores_json (x :: others) |} ->
  queries.bestscore w g d =
    {| queries.status := 200; queries.body := queries.best_json (Some b) |} ->
  queries.score_leb (Score.score b) (Score.score x) = true.
Proof.
  unfold queries.leaderboard, queries.bestscore.
  destruct (falsy g); [discriminate|].
  destruct (falsy w || false); [discriminate|].
  intros Hboard Hbest. injection Hboard as Hboard. injection Hbest as Hbest.
  pose proof (best_of (filter (queries.matches w g) (scores d))) as Hb.
  rewrite Hbest in Hb. destruct Hb as [Hin _].
  apply filter_In in Hin. destruct Hin as [Hin Hm].
  apply matches_true in Hm. destruct Hm as [_ Hbg].
  pose proof (best_of (filter (queries.matches_game g) (scores d))) as Hx.
  destruct (queries.sort_desc (filter (queries.matches_game g) (scores d)))
    as [|y rest]; [discriminate|].
  simpl in Hboard. injection Hboard as -> _. simpl in Hx.
  destruct Hx as [_ Hmax]. apply Hmax. apply filter_In. split; [exact Hin|].
  unfold queries.matches_game. now apply negb_true_iff, strict_neq_false.
Qed.

Section Visible.

Variable JWT_SECRET : string.
Variable crypto_sign_open : bytes -> bytes -> bool.

Let register := server.register crypto_sign_open.
Let score := server.score JWT_SECRET crypto_sign_open.
Let reachable_from := server.reachable_from JWT_SECRET crypto_sign_open.

Lemma register_ok_found (req : RegisterBody.t) (now : Z) (d d1 : db)
    (u : User.t) :
  register req now d = ({| status := 200; body := user_json true u |}, d1) ->
  falsy (RegisterBody.wallet req) = false /\
  User.findOne (users d1) (RegisterBody.wallet req) = Some u /\
  (User.findOne (users d) (RegisterBody.wallet req) = None ->
   User.name u = RegisterBody.name req).
Proof.
  unfold register. rewrite register_cases.
  destruct (falsy (RegisterBody.wallet req)); [discriminate|].
  destruct (negb (RegisterBody.skip req) && _); [discriminate|].
  destruct (if RegisterBody.skip req then _ else _) as [[|]|e];
    try discriminate.
  destruct (User.findOne (users d) (RegisterBody.wallet req)) eqn:Ef.
  - intros H. injection H as <- <-. repeat split; [exact Ef|discriminate].
  - destruct (User.validate (server.new_user req now)); [|discriminate].
    intros H. injection H as <- <-. repeat split.
    apply (findOne_app_new (users d) (server.new_user req now)). exact Ef.
Qed.

(** X16.  Once a registration has answered 200 with a User, the user endpoint
    reports that wallet as registered, with that User's name, in every
    state the server reaches afterwards; for a wallet that was new, the
    name is the one that registration supplied. *)
Theorem registered_user_stays_visible
    (req : RegisterBody.t) (now : Z) (d d1 d2 : db) (u : User.t) :
  register req now d = ({| status := 200; body := user_json true u |}, d1) ->
  reachable_from d1 d2 ->
  queries.user (RegisterBody.wallet req) d2 =
    {| queries.status := 200;
       queries.body := queries.registered_json true (User.name u) |} /\
  (User.findOne (users d) (RegisterBody.wallet req) = None ->
   User.name u = RegisterBody.name req).
Proof.
  intros Hok Hreach. apply register_ok_found in Hok.
  destruct Hok as [Hw [Hfound Hname]]. split; [|exact Hname].
  unfold queries.user. rewrite Hw.
  now rewrite (reachable_keeps_user JWT_SECRET crypto_sign_open d1 d2 _ u
                 Hreach Hfound).
Qed.

(** X17.  After a submission has answered 200, bestscore for its wallet and
    game never again answers null, and the best it reports is at least
    the submitted score, in every state the server reaches afterwards. *)
Theorem bestscore_after_submission
    (req : ScoreBody.t) (now : Z) (d d2 : db) :
  status (fst (score req now d)) = 200 ->
  reachable_from (snd (score req now d)) d2 ->
  exists b,
    queries.bestscore (ScoreBody.wallet req) (ScoreBody.game req) d2 =
      {| queries.status := 200;
         queries.body := queries.best_json (Some b) |} /\
    queries.score_leb (ScoreBody.score req) (Score.score b) = true.
Proof.
  unfold score. rewrite score_cases.
  destruct (server.score_fields_missing req) eqn:Em; [discriminate|].
  destruct (jwt.verify _ _ _) as [p|e]; [|discriminate].
  destruct (server.session_mismatch p req); [discriminate|].
  destruct (server.score_verify crypto_sign_open req) as [[|]|e];
    try discriminate.
  simpl. intros _ Hreach.
  apply fields_present in Em. destruct Em as [Hw [Hg _]].
  assert (Hin : In (server.new_score req now d) (scores d2)).
  { apply (reachable_scores_kept JWT_SECRET crypto_sign_open _ _ _ Hreach). simpl.
    apply in_or_app. right. now left. }
  assert (Hm : In (server.new_score req now d)
                 (filter (queries.matches (ScoreBody.wallet req)
                            (ScoreBody.game req)) (scores d2))).
  { apply filter_In. split; [exact Hin|]. now apply matches_true. }
  unfold queries.bestscore. rewrite Hw, Hg. simpl.
  pose proof (best_of (filter (queries.matches (ScoreBody.wallet req)
                                 (ScoreBody.game req)) (scores d2))) as Hbest.
  destruct (hd_error _) as [b|].
  - exists b. split; [reflexivity|]. destruct Hbest as [_ Hmax].
    apply (Hmax _ Hm).
  - rewrite Hbest in Hm. destruct Hm.
Qed.

End Visible.

(** ** The further properties at concrete requests *)

Lemma sample_reachable :
  server.reachable_from demo.secret demo.sign_open empty_db sample.played.
Proof.
  exact (server.reach_step demo.secret demo.sign_open empty_db _ sample.r2
           (server.reach_step demo.secret demo.sign_open empty_db _ sample.r1
              (server.reach_here demo.secret demo.sign_open empty_db))).
Defined.

Lemma collections_append_only_witness :
  exists new_users new_scores,
    users sample.played = (users empty_db ++ new_users)%list /\
    scores sample.played = (scores empty_db ++ new_scores)%list.
Proof.
  exact (collections_append_only demo.secret demo.sign_open empty_db
           sample.played sample_reachable).
Defined.

Lemma stored_users_valid_and_unique_witness :
  Forall (fun u => User.validate u = true) (users sample.played) /\
  forall w, (server.count_wallet w (users sample.played) <= 1)%nat.
Proof.
  exact (stored_users_valid_and_unique demo.secret demo.sign_open
           sample.played sample_reachable).
Defined.

Lemma stored_scores_well_formed_witness :
  Forall score_well_formed (scores sample.played).
Proof.
  exact (stored_scores_well_formed demo.secret demo.sign_open
           sample.played sample_reachable).
Defined.

Lemma stored_score_names_from_users_witness :
  Forall (name_from_user sample.played) (scores sample.played).
Proof.
  exact (stored_score_names_from_users demo.secret demo.sign_open
           sample.played sample_reachable).
Defined.

Lemma error_responses_write_nothing_witness :
  snd (server.register demo.sign_open
         (demo.signup demo.W (Some demo.LONG_NAME)) demo.t0 empty_db) =
    empty_db /\
  snd (server.score demo.secret demo.sign_open
         (demo.submission "tetris" demo.SIG 42) demo.t0 demo.with_ann) =
    demo.with_ann /\
  scores (snd (server.score demo.secret demo.sign_open (demo.submit 42)
                 demo.t0 demo.with_ann)) <> scores demo.with_ann.
Proof.
  destruct (error_responses_write_nothing demo.secret demo.sign_open)
    as [Hreg [Hscore Hok]].
  split; [|split].
  - apply Hreg. vm_compute. discriminate.
  - apply Hscore. vm_compute. discriminate.
  - apply Hok. reflexivity.
Defined.

Lemma token_is_scoped_to_wallet_and_game_witness :
  server.score demo.secret demo.sign_open
    (demo.submission "tetris" demo.SIG 42) (demo.t0 + 5000) demo.with_ann =
  ({| status := 401;
      body := error_json "Session token does not match the request" |},
   demo.with_ann).
Proof.
  apply (token_is_scoped_to_wallet_and_game demo.secret demo.sign_open
           (Some demo.W) (Some "snake") demo.t0 (demo.t0 + 5000) demo.token).
  - reflexivity.
  - reflexivity.
  - reflexivity.
  - right. discriminate.
  - vm_compute. reflexivity.
Defined.

Lemma submission_repeatable_until_expiry_witness :
  server.score demo.secret demo.sign_open (demo.submit 42)
    (demo.t0 + 599000) sample.played =
  ({| status := 200; body := success_json true |},
   {| users := users sample.played;
      scores := (scores sample.played ++
                 [server.new_score (demo.submit 42) (demo.t0 + 599000)
                    sample.played])%list |}).
Proof.
  destruct (submission_repeatable_until_expiry demo.secret demo.sign_open
              (demo.submit 42) demo.t0 demo.with_ann eq_refl)
    as [p [Hp Hrepeat]].
  apply Hrepeat.
  assert (Hc : Returned p = Returned demo.token_claims)
    by (rewrite <- Hp; reflexivity).
  injection Hc as ->. vm_compute. reflexivity.
Defined.

Lemma signature_not_bound_to_score_witness :
  exists r,
    server.score demo.secret demo.sign_open
      (with_score (demo.submit 42) 1000000) demo.t0 demo.with_ann =
      ({| status := 200; body := success_json true |},
       {| users := users demo.with_ann;
          scores := (scores demo.with_ann ++ [r])%list |}) /\
    Score.score r = Some (Number 1000000).
Proof.
  destruct (signature_not_bound_to_score demo.secret demo.sign_open
              (demo.submit 42) demo.t0 demo.with_ann 1000000 eq_refl)
    as [r [Hrun [Hs _]]].
  exists r. split; [exact Hrun|exact Hs].
Defined.

Lemma register_skip_ignores_proof_witness :
  server.register (fun _ _ => false)
    (with_proof (demo.signup demo.W (Some "Ann"))
       (Some demo.NOT_BASE58) (Some "m1")) demo.t0 empty_db =
  server.register demo.sign_open (demo.signup demo.W (Some "Ann")) demo.t0
    empty_db.
Proof.
  apply (register_skip_ignores_proof demo.sign_open (fun _ _ => false)).
  reflexivity.
Defined.

Lemma register_presence_checks_first_witness :
  server.register demo.sign_open
    {| RegisterBody.wallet := None; RegisterBody.signature := None;
       RegisterBody.message := None; RegisterBody.name := Some "Ann";
       RegisterBody.skip := true |} demo.t0 empty_db =
    ({| status := 400; body := error_json "Missing wallet" |}, empty_db) /\
  server.register demo.sign_open
    {| RegisterBody.wallet := Some demo.NOT_BASE58;
       RegisterBody.signature := None;
       RegisterBody.message := Some "m1"; RegisterBody.name := Some "Ann";
       RegisterBody.skip := false |} demo.t0 empty_db =
    ({| status := 400; body := error_json "Missing required fields" |},
     empty_db).
Proof.
  split.
  - apply (proj1 (register_presence_checks_first demo.sign_open _ _ _)).
    reflexivity.
  - apply (proj2 (register_presence_checks_first demo.sign_open _ _ _));
      [reflexivity|reflexivity|left; reflexivity].
Defined.

Lemma bestscore_is_maximum_witness :
  exists best,
    queries.bestscore (Some demo.W) (Some "snake") sample.played =
      {| queries.status := 200; queries.body := queries.best_json best |} /\
    (forall b, best = Some b -> In b (scores sample.played)).
Proof.
  destruct (bestscore_is_maximum (Some demo.W) (Some "snake") sample.played
              eq_refl eq_refl) as [best [Hrun [_ Hbest]]].
  exists best. split; [exact Hrun|]. intros b Hb. apply (Hbest b Hb).
Defined.

Lemma leaderboard_is_top_50_witness :
  exists top,
    queries.leaderboard (Some "snake") sample.played =
      {| queries.status := 200; queries.body := queries.scores_json top |} /\
    (List.length top <= 50)%nat.
Proof.
  destruct (leaderboard_is_top_50 (Some "snake") sample.played eq_refl)
    as [top [rest [Hrun [Hlen _]]]].
  exists top. split; [exact Hrun|exact Hlen].
Defined.

Lemma registered_user_stays_visible_witness :
  queries.user (Some demo.W) sample.played =
  {| queries.status := 200;
     queries.body := queries.registered_json true (Some "Ann") |}.
Proof.
  apply (proj1 (registered_user_stays_visible demo.secret demo.sign_open
                  (demo.signup demo.W (Some "Ann")) demo.t0 empty_db
                  demo.with_ann sample.played demo.ann eq_refl
                  (server.reach_step demo.secret demo.sign_open
                     demo.with_ann _ sample.r2
                     (server.reach_here demo.secret demo.sign_open
                        demo.with_ann)))).
Defined.

Lemma bestscore_after_submission_witness :
  exists b,
    queries.bestscore (Some demo.W) (Some "snake") sample.played =
      {| queries.status := 200;
         queries.body := queries.best_json (Some b) |} /\
    queries.score_leb (Some (Number 42)) (Score.score b) = true.
Proof.
  apply (bestscore_after_submission demo.secret demo.sign_open
           (demo.submit 42) demo.t0 demo.with_ann sample.played eq_refl).
  apply server.reach_here.
Defined.

Lemma session_then_score_succeeds_witness :
  server.score demo.secret demo.sign_open (demo.submit 42) (demo.t0 + 5000)
    empty_db =
  ({| status := 200; body := success_json true |},
   {| users := [];
      scores := [server.new_score (demo.submit 42) (demo.t0 + 5000)
                   empty_db] |}).
Proof.
  apply (session_then_score_succeeds demo.secret demo.sign_open
           (Some demo.W) (Some "snake") demo.t0 (demo.t0 + 5000) demo.token
           (demo.submit 42) empty_db);
    try reflexivity.
  discriminate.
Defined.

Lemma leaderboard_head_dominates_bestscore_witness :
  queries.score_leb (Score.score sample.score42) (Score.score sample.score42)
    = true.
Proof.
  apply (leaderboard_head_dominates_bestscore (Some demo.W) (Some "snake")
           sample.played sample.score42 sample.score42 []); reflexivity.
Defined.
